(** * Quickhull: a shallow embedding of [quickhull.py] and its properties

    The development follows the source file function by function.

    Modelling choices.
    - A point is a Python list [[x, y]] of two integers, as
      [generate_coordinates] builds them; it is embedded as a pair of [Z].
      Python integers are unbounded, so [cross_product] is exact.
    - [math.dist] and the true division of [distance_from_line_to_point]
      work on binary64 floats.  A float is embedded as a whole number of
      units of 2^-1074, the smallest positive float, or as an infinity
      ([Py.float]); conversion from [int], subtraction and division round
      to the nearest float, ties to even, as IEEE 754 prescribes.  No NaN
      arises from integer coordinates, and the two zeros, which [<], [==]
      and division by a non-zero float do not tell apart, are one value.
      CPython computes the norm inside [math.dist] with an error below one
      unit in the last place; it is embedded as the correctly rounded norm.
    - Exceptions are values of [Py.exception]; a computation that may raise
      returns a [Py.result].  The interpreter's recursion limit is not
      modelled. *)

From Stdlib Require Import ZArith List Bool Lia Arith.
From Stdlib Require Import Permutation.
From Equations Require Import Equations.
Import ListNotations.

Local Open Scope Z_scope.

(** ** Python built-ins used by the source *)

Module Py.

Inductive exception : Set :=
| ValueError          (* min(), max() of an empty sequence; list.index miss *)
| ZeroDivisionError   (* division by 0.0 *)
| IndexError          (* list subscript out of range *)
| OverflowError.      (* int too large to convert to float *)

Definition result (A : Type) : Type := (exception + A)%type.

Definition ret {A : Type} (a : A) : result A := inr a.
Definition raise {A : Type} (e : exception) : result A := inl e.

Definition bind {A B : Type} (m : result A) (k : A -> result B) : result B :=
  match m with
  | inl e => inl e
  | inr a => k a
  end.

(** [min(l, key=...)]: the first element whose key is minimal.  [ltb a b]
    is the comparison [key(a) < key(b)]. *)
Definition min {A : Type} (ltb : A -> A -> bool) (l : list A) : result A :=
  match l with
  | [] => raise ValueError
  | x :: rest =>
      ret (fold_left (fun best item => if ltb item best then item else best) rest x)
  end.

(** [max(l, key=...)]: the first element whose key is maximal. *)
Definition max {A : Type} (ltb : A -> A -> bool) (l : list A) : result A :=
  match l with
  | [] => raise ValueError
  | x :: rest =>
      ret (fold_left (fun best item => if ltb best item then item else best) rest x)
  end.

(** [l.index(v)]: position of the first element equal to [v]. *)
Fixpoint index {A : Type} (eqb : A -> A -> bool) (v : A) (l : list A) : result nat :=
  match l with
  | [] => raise ValueError
  | x :: rest =>
      if eqb x v then ret O
      else bind (index eqb v rest) (fun i => ret (S i))
  end.

(** [l[i]] for a non-negative index. *)
Definition getitem {A : Type} (l : list A) (i : nat) : result A :=
  match nth_error l i with
  | Some a => ret a
  | None => raise IndexError
  end.

(** A [for] loop appending [f(x)] to a list for every [x], stopping at the
    first exception. *)
Fixpoint for_append {A B : Type} (f : A -> result B) (l : list A) : result (list B) :=
  match l with
  | [] => ret []
  | a :: rest =>
      bind (f a) (fun b => bind (for_append f rest) (fun bs => ret (b :: bs)))
  end.

(** *** binary64 floats *)

(** A float other than a NaN: [Finite k] is the value k * 2^-1074, of which
    the floats are those with at most 53 significant bits and magnitude
    below 2^1024. *)
Inductive float : Set :=
| Finite (units : Z)
| Infinity (negative : bool).

(** 2^1024, in units. *)
Definition overflow_threshold : Z := 2 ^ 2098.

(** The integer nearest to [n / d], the even one of two equally near;
    [0 <= n] and [0 < d]. *)
Definition nearest_even (n d : Z) : Z :=
  let q := n / d in
  match 2 * (n mod d) ?= d with
  | Lt => q
  | Gt => q + 1
  | Eq => if Z.even q then q else q + 1
  end.

(** Distance, in units, between neighbouring floats at magnitude [q]
    units: 1 below 2^53 units, doubling with every further bit. *)
Definition spacing (q : Z) : Z := 2 ^ Z.max 0 (Z.log2 q - 52).

(** The float nearest to [n / d] units, for [0 <= n] and [0 < d]. *)
Definition round_pos (n d : Z) : float :=
  let s := spacing (n / d) in
  let k := nearest_even n (d * s) * s in
  if k <? overflow_threshold then Finite k else Infinity false.

Definition float_neg (x : float) : float :=
  match x with
  | Finite k => Finite (- k)
  | Infinity s => Infinity (negb s)
  end.

Definition float_abs (x : float) : float :=
  match x with
  | Finite k => Finite (Z.abs k)
  | Infinity _ => Infinity false
  end.

(** The float nearest to [n / d] units, for [0 < d]. *)
Definition round (n d : Z) : float :=
  if n <? 0 then float_neg (round_pos (- n) d) else round_pos n d.

(** The float nearest to the square root of [n] units squared: with [m] the
    root in whole multiples of the spacing, rounded down, [n] is compared
    with the square of the halfway point (m + 1/2) * s. *)
Definition round_sqrt (n : Z) : float :=
  let s := spacing (Z.sqrt n) in
  let m := Z.sqrt (n / (s * s)) in
  let k :=
    match 4 * n ?= (2 * m + 1) * (2 * m + 1) * (s * s) with
    | Lt => m
    | Gt => m + 1
    | Eq => if Z.even m then m else m + 1
    end * s in
  if k <? overflow_threshold then Finite k else Infinity false.

(** [float(n)] for an [int], as [math.dist] and [/] apply it. *)
Definition float_of_int (n : Z) : result float :=
  match round (n * 2 ^ 1074) 1 with
  | Infinity _ => raise OverflowError
  | x => ret x
  end.

(** [x - y].  Two infinities of one sign give a NaN, which has no value
    here; the source subtracts converted integers only, which are finite. *)
Definition float_sub (x y : float) : float :=
  match x, y with
  | Finite a, Finite b => round (a - b) 1
  | Infinity s, _ => Infinity s
  | Finite _, Infinity s => Infinity (negb s)
  end.

(** The Euclidean norm of two non-negative floats. *)
Definition vector_norm (x y : float) : float :=
  match x, y with
  | Finite a, Finite b =>
      if (a =? 0) && (b =? 0) then Finite 0 else round_sqrt (a * a + b * b)
  | _, _ => Infinity false
  end.

(** [math.dist(p, q)] on two-element sequences of integers: the
    coordinates are converted to floats, subtracted as floats, and the norm
    of the differences is returned. *)
Definition dist (p q : Z * Z) : result float :=
  bind (float_of_int (fst p)) (fun px =>
  bind (float_of_int (fst q)) (fun qx =>
  bind (float_of_int (snd p)) (fun py =>
  bind (float_of_int (snd q)) (fun qy =>
  ret (vector_norm (float_abs (float_sub px qx))
                   (float_abs (float_sub py qy))))))).

(** [x / d] for floats, [d] not zero.  An infinity over an infinity gives a
    NaN; the source divides converted integers only. *)
Definition float_quotient (x d : float) : float :=
  match x, d with
  | Finite a, Finite b =>
      if 0 <? b then round (a * 2 ^ 1074) b else round (- a * 2 ^ 1074) (- b)
  | Finite _, Infinity _ => Finite 0
  | Infinity s, Finite b => Infinity (xorb s (b <? 0))
  | Infinity s, Infinity s' => Infinity (xorb s s')
  end.

(** [a / d] for an [int] [a] and a float [d]: true division. *)
Definition truediv (a : Z) (d : float) : result float :=
  bind (float_of_int a) (fun x =>
  match d with
  | Finite 0 => raise ZeroDivisionError
  | _ => ret (float_quotient x d)
  end).

(** Position of a float on the number line, the infinities at +-2^1024. *)
Definition float_key (x : float) : Z :=
  match x with
  | Finite k => k
  | Infinity false => overflow_threshold
  | Infinity true => - overflow_threshold
  end.

(** [x < y] and [x == y] on floats. *)
Definition float_ltb (x y : float) : bool := float_key x <? float_key y.
Definition float_eqb (x y : float) : bool := float_key x =? float_key y.

End Py.

Notation "x <- m ;; k" := (Py.bind m (fun x => k))
  (at level 61, m at next level, right associativity).
Notation "' pat <- m ;; k" := (Py.bind m (fun x => let 'pat := x in k))
  (at level 61, pat pattern, m at next level, right associativity).

(** ** The source functions *)

Definition Point : Set := (Z * Z)%type.

Definition point_eqb (p q : Point) : bool :=
  (fst p =? fst q) && (snd p =? snd q).

Definition cross_product (point1 point2 point3 : Point) : Z :=
  (fst point2 - fst point1) * (snd point3 - snd point1)
  - (fst point3 - fst point1) * (snd point2 - snd point1).

(** One iteration of the loop of [find_coordinates_above_and_below_line].
    The first conditional of the source has an empty body ([pass]); it is
    kept, with both branches leaving the two lists as they are. *)
Definition above_below_step (line_start line_end : Point)
    (acc : list Point * list Point) (point : Point) : list Point * list Point :=
  let angle := cross_product line_start line_end point in
  let acc :=
    if (angle =? 0) || point_eqb point line_start || point_eqb point line_end
    then acc
    else acc in
  let '(above_line, below_line) := acc in
  if angle >? 0 then (above_line ++ [point], below_line)
  else (above_line, below_line ++ [point]).

Definition find_coordinates_above_and_below_line
    (coordinates : list Point) (line_start line_end : Point)
    : list Point * list Point :=
  fold_left (above_below_step line_start line_end) coordinates ([], []).

Definition find_leftmost_and_rightmost (coordinates : list Point)
    : Py.result (Point * Point) :=
  leftmost <- Py.min (fun a b : Point => fst a <? fst b) coordinates ;;
  rightmost <- Py.max (fun a b : Point => fst a <? fst b) coordinates ;;
  Py.ret (leftmost, rightmost).

Definition distance_from_line_to_point (line_start line_end point : Point)
    : Py.result Py.float :=
  line_distance <- Py.dist line_start line_end ;;
  let angle := cross_product line_start line_end point in
  Py.truediv angle line_distance.

Definition farthest_point_from_line
    (coordinates : list Point) (line_start line_end : Point) : Py.result Point :=
  distances <-
    Py.for_append (distance_from_line_to_point line_start line_end) coordinates ;;
  largest <- Py.max Py.float_ltb distances ;;
  index <- Py.index Py.float_eqb largest distances ;;
  Py.getitem coordinates index.

(** ** Facts needed to define the recursion of [find_hull] *)

Section ListFacts.
Context {A : Type}.

Lemma filter_length_lt (keep : A -> bool) (x : A) (l : list A) :
  In x l -> keep x = false -> (length (filter keep l) < length l)%nat.
Proof.
  induction l as [|a l IH]; simpl; [tauto|].
  intros [->|Hin] Hx.
  - rewrite Hx. pose proof (filter_length_le keep l). lia.
  - specialize (IH Hin Hx). destruct (keep a); simpl; lia.
Qed.

Lemma getitem_In (l : list A) (i : nat) (a : A) :
  Py.getitem l i = inr a -> In a l.
Proof.
  unfold Py.getitem. destruct (nth_error l i) eqn:E; [|discriminate].
  intros [= <-]. eapply nth_error_In; eassumption.
Qed.
End ListFacts.

(** Side of a point relative to a baseline, as the partitioner tests it. *)
Definition is_above (line_start line_end point : Point) : bool :=
  cross_product line_start line_end point >? 0.

Lemma above_below_loop (line_start line_end : Point) (coordinates above below : list Point) :
  fold_left (above_below_step line_start line_end) coordinates (above, below)
  = (above ++ filter (is_above line_start line_end) coordinates,
     below ++ filter (fun p => negb (is_above line_start line_end p)) coordinates).
Proof.
  revert above below.
  induction coordinates as [|p rest IH]; intros above below.
  - simpl. now rewrite !app_nil_r.
  - cbn [fold_left filter].
    (* both branches of the empty conditional give the same pair *)
    assert (Hstep : above_below_step line_start line_end (above, below) p
                    = if is_above line_start line_end p
                      then (above ++ [p], below) else (above, below ++ [p])).
    { unfold above_below_step, is_above. destruct (_ || _); reflexivity. }
    rewrite Hstep.
    destruct (is_above line_start line_end p); cbn [negb];
      rewrite IH, <- app_assoc; reflexivity.
Qed.

Lemma above_below_filter (coordinates : list Point) (line_start line_end : Point) :
  find_coordinates_above_and_below_line coordinates line_start line_end
  = (filter (is_above line_start line_end) coordinates,
     filter (fun p => negb (is_above line_start line_end p)) coordinates).
Proof.
  unfold find_coordinates_above_and_below_line. now rewrite above_below_loop.
Qed.

Lemma cross_product_end (a b : Point) : cross_product a b b = 0.
Proof. unfold cross_product. ring. Qed.

Lemma cross_product_start (a b : Point) : cross_product a b a = 0.
Proof. unfold cross_product. ring. Qed.

Lemma farthest_point_In (coordinates : list Point) (line_start line_end f : Point) :
  farthest_point_from_line coordinates line_start line_end = inr f ->
  In f coordinates.
Proof.
  unfold farthest_point_from_line, Py.bind.
  destruct (Py.for_append _ _) as [|distances]; [discriminate|].
  destruct (Py.max _ _) as [|largest]; [discriminate|].
  destruct (Py.index _ _ _) as [|index]; [discriminate|].
  apply getitem_In.
Qed.

(** The point selected as farthest is dropped by both partitions that
    [find_hull] recurses on, which makes each recursive subset shorter. *)
Lemma above_start_farthest_shorter (subset : list Point) (line_start line_end f : Point) :
  farthest_point_from_line subset line_start line_end = inr f ->
  (length (fst (find_coordinates_above_and_below_line subset line_start f))
   < length subset)%nat.
Proof.
  intros Hf. rewrite above_below_filter. simpl.
  apply filter_length_lt with (x := f).
  - eapply farthest_point_In; eassumption.
  - unfold is_above. now rewrite cross_product_end.
Qed.

Lemma above_farthest_end_shorter (subset : list Point) (line_start line_end f : Point) :
  farthest_point_from_line subset line_start line_end = inr f ->
  (length (fst (find_coordinates_above_and_below_line subset f line_end))
   < length subset)%nat.
Proof.
  intros Hf. rewrite above_below_filter. simpl.
  apply filter_length_lt with (x := f).
  - eapply farthest_point_In; eassumption.
  - unfold is_above. now rewrite cross_product_start.
Qed.

(** ** The recursive hull builder and the orchestrator *)

(** Matching on a value while remembering which computation produced it. *)
Definition inspect {A : Type} (a : A) : {b : A | a = b} := exist _ a eq_refl.

Equations? find_hull (subset_of_coordinates : list Point) (line_start line_end : Point)
    : Py.result (list Point) by wf (length subset_of_coordinates) lt :=
  find_hull [] _ _ := Py.ret [];
  find_hull (p :: rest) line_start line_end
    with inspect (farthest_point_from_line (p :: rest) line_start line_end) := {
    | exist _ (inl e) _ := Py.raise e
    | exist _ (inr farthest_point) Hfar :=
        let convex_hull := [farthest_point] in
        let coordinates_above_right_side :=
          fst (find_coordinates_above_and_below_line (p :: rest) line_start farthest_point) in
        let coordinates_above_left_side :=
          fst (find_coordinates_above_and_below_line (p :: rest) farthest_point line_end) in
        right_hull <- find_hull coordinates_above_right_side line_start farthest_point ;;
        left_hull <- find_hull coordinates_above_left_side farthest_point line_end ;;
        Py.ret (convex_hull ++ right_hull ++ left_hull) }.
Proof.
  - exact (above_start_farthest_shorter _ _ _ _ Hfar).
  - exact (above_farthest_end_shorter _ _ _ _ Hfar).
Qed.

Definition quick_hull (coordinates : list Point) : Py.result (list Point) :=
  '(leftmost, rightmost) <- find_leftmost_and_rightmost coordinates ;;
  let '(coords_above_line, coords_below_line) :=
    find_coordinates_above_and_below_line coordinates leftmost rightmost in
  above_convex_hull <- find_hull coords_above_line leftmost rightmost ;;
  below_convex_hull <- find_hull coords_below_line rightmost leftmost ;;
  Py.ret ([leftmost] ++ above_convex_hull ++ below_convex_hull ++ [rightmost]).

(** ** Notions used in the statements *)

(** The body of [find_hull] on a non-empty subset, with the recursion of the
    source written with the error monad. *)
Definition find_hull_body (subset : list Point) (line_start line_end : Point)
    : Py.result (list Point) :=
  farthest_point <- farthest_point_from_line subset line_start line_end ;;
  right_hull <-
    find_hull (fst (find_coordinates_above_and_below_line subset line_start farthest_point))
              line_start farthest_point ;;
  left_hull <-
    find_hull (fst (find_coordinates_above_and_below_line subset farthest_point line_end))
              farthest_point line_end ;;
  Py.ret ([farthest_point] ++ right_hull ++ left_hull).

(** The recursive calls of [find_hull]: a call on a non-empty subset with
    farthest point [f] calls itself on the points above [(line_start, f)]
    and on the points above [(f, line_end)]. *)
Inductive find_hull_call : list Point * Point * Point -> list Point * Point * Point -> Prop :=
| call_right_hull (subset : list Point) (line_start line_end f : Point) :
    subset <> [] ->
    farthest_point_from_line subset line_start line_end = inr f ->
    find_hull_call (subset, line_start, line_end)
      (fst (find_coordinates_above_and_below_line subset line_start f), line_start, f)
| call_left_hull (subset : list Point) (line_start line_end f : Point) :
    subset <> [] ->
    farthest_point_from_line subset line_start line_end = inr f ->
    find_hull_call (subset, line_start, line_end)
      (fst (find_coordinates_above_and_below_line subset f line_end), f, line_end).

(** ** Unfolding [find_hull] *)

Lemma find_hull_cons (p : Point) (rest : list Point) (line_start line_end : Point) :
  find_hull (p :: rest) line_start line_end
  = find_hull_body (p :: rest) line_start line_end.
Proof.
  rewrite find_hull_equation_2. unfold inspect, find_hull_body.
  assert (Hgen : forall r (H : farthest_point_from_line (p :: rest) line_start line_end = r),
             find_hull_unfold_clause_2 p rest line_start line_end (exist _ r H)
             = Py.bind r (fun farthest_point =>
                 right_hull <-
                   find_hull (fst (find_coordinates_above_and_below_line
                                     (p :: rest) line_start farthest_point))
                             line_start farthest_point ;;
                 left_hull <-
                   find_hull (fst (find_coordinates_above_and_below_line
                                     (p :: rest) farthest_point line_end))
                             farthest_point line_end ;;
                 Py.ret ([farthest_point] ++ right_hull ++ left_hull))).
  { intros [err|f] H.
    - reflexivity.
    - rewrite find_hull_clause_2_equation_2. reflexivity. }
  apply Hgen.
Qed.

Lemma find_hull_nonempty (subset : list Point) (line_start line_end : Point) :
  subset <> [] ->
  find_hull subset line_start line_end = find_hull_body subset line_start line_end.
Proof.
  destruct subset as [|p rest]; [congruence|]. intros _. apply find_hull_cons.
Qed.

(** Induction on the length of the subset, the measure of the recursion. *)
Lemma subset_length_ind (P : list Point -> Prop) :
  (forall subset,
      (forall smaller, (length smaller < length subset)%nat -> P smaller) ->
      P subset) ->
  forall subset, P subset.
Proof.
  intros Hstep subset.
  induction subset as [subset IH] using (induction_ltof1 _ (@length Point)).
  apply Hstep. exact IH.
Qed.

(** Inversion of a successful non-empty call. *)
Lemma find_hull_inr_inv (subset : list Point) (line_start line_end : Point)
    (hull : list Point) :
  subset <> [] ->
  find_hull subset line_start line_end = inr hull ->
  exists f right_hull left_hull,
    farthest_point_from_line subset line_start line_end = inr f
    /\ find_hull (fst (find_coordinates_above_and_below_line subset line_start f))
                 line_start f = inr right_hull
    /\ find_hull (fst (find_coordinates_above_and_below_line subset f line_end))
                 f line_end = inr left_hull
    /\ hull = f :: right_hull ++ left_hull.
Proof.
  intros Hne. rewrite (find_hull_nonempty _ _ _ Hne).
  unfold find_hull_body, Py.bind.
  destruct (farthest_point_from_line subset line_start line_end) as [|f];
    [discriminate|].
  destruct (find_hull _ line_start f) as [|right_hull] eqn:Hr; [discriminate|].
  destruct (find_hull _ f line_end) as [|left_hull] eqn:Hl; [discriminate|].
  intros [= <-]. exists f, right_hull, left_hull. auto.
Qed.

(** Every vertex [find_hull] reports comes from the subset it was given. *)
Lemma find_hull_incl (subset : list Point) :
  forall line_start line_end hull,
    find_hull subset line_start line_end = inr hull -> incl hull subset.
Proof.
  induction subset as [subset IH] using subset_length_ind.
  intros line_start line_end hull Hrun.
  destruct subset as [|p rest].
  - rewrite find_hull_equation_1 in Hrun. injection Hrun as <-. apply incl_nil_l.
  - apply find_hull_inr_inv in Hrun; [|discriminate].
    destruct Hrun as (f & right_hull & left_hull & Hf & Hr & Hl & ->).
    pose proof (above_start_farthest_shorter _ _ _ _ Hf) as Hlt1.
    pose proof (above_farthest_end_shorter _ _ _ _ Hf) as Hlt2.
    apply IH in Hr; [|exact Hlt1]. apply IH in Hl; [|exact Hlt2].
    rewrite above_below_filter in Hr, Hl. cbn [fst] in Hr, Hl.
    intros q [<-|Hq].
    + eapply farthest_point_In; eassumption.
    + apply in_app_or in Hq. destruct Hq as [Hq|Hq].
      * apply Hr in Hq. apply filter_In in Hq. tauto.
      * apply Hl in Hq. apply filter_In in Hq. tauto.
Qed.

(** ** The selection loops of [min], [max] and [index] *)

Section FirstBest.
Context {A : Type}.
(** [better a b]: [a] replaces [b] as the running result. *)
Variable better : A -> A -> bool.
(** On the elements of interest, [better] is the strict order of a key. *)
Variable key : A -> Z.
Variable dom : A -> Prop.
Hypothesis better_key :
  forall a b, dom a -> dom b -> (better a b = true <-> key a < key b).

(** [m] is the first element of [l] with the least key. *)
Definition first_least (m : A) (l : list A) : Prop :=
  exists pre post,
    l = pre ++ m :: post
    /\ (forall q, In q pre -> key m < key q)
    /\ (forall q, In q post -> key m <= key q).

Lemma first_least_In (m : A) (l : list A) : first_least m l -> In m l.
Proof.
  intros (pre & post & -> & _). apply in_elt.
Qed.

Lemma first_least_le (m : A) (l : list A) :
  first_least m l -> forall q, In q l -> key m <= key q.
Proof.
  intros (pre & post & -> & Hpre & Hpost) q Hq.
  apply in_app_or in Hq. destruct Hq as [Hq|[<-|Hq]].
  - apply Hpre in Hq. lia.
  - lia.
  - now apply Hpost.
Qed.

Lemma first_least_unique (m m' : A) (l : list A) :
  first_least m l -> first_least m' l -> key m = key m'.
Proof.
  intros H H'.
  pose proof (first_least_le _ _ H _ (first_least_In _ _ H')).
  pose proof (first_least_le _ _ H' _ (first_least_In _ _ H)).
  lia.
Qed.

Lemma keep_best_fold (rest : list A) :
  forall pre best mid,
    Forall dom (best :: rest) ->
    (forall q, In q pre -> key best < key q) ->
    (forall q, In q mid -> key best <= key q) ->
    first_least
      (fold_left (fun best item => if better item best then item else best) rest best)
      (pre ++ best :: mid ++ rest).
Proof.
  induction rest as [|item rest IH]; intros pre best mid Hdom Hpre Hmid.
  - exists pre, mid. rewrite app_nil_r. auto.
  - cbn [fold_left].
    inversion Hdom as [|? ? Hbest Hdom']; subst.
    inversion Hdom' as [|? ? Hitem Hrest]; subst.
    destruct (better item best) eqn:E.
    + apply better_key in E; [|assumption..].
      replace (pre ++ best :: mid ++ item :: rest)
        with ((pre ++ best :: mid) ++ item :: [] ++ rest)
        by (rewrite <- app_assoc; reflexivity).
      apply IH.
      * now constructor.
      * intros q Hq. apply in_app_or in Hq. destruct Hq as [Hq|[<-|Hq]].
        -- apply Hpre in Hq. lia.
        -- exact E.
        -- apply Hmid in Hq. lia.
      * intros q [].
    + assert (key best <= key item) as Hle.
      { destruct (Z.lt_ge_cases (key item) (key best)) as [Hlt|Hge]; [|exact Hge].
        apply better_key in Hlt; [congruence|assumption..]. }
      replace (pre ++ best :: mid ++ item :: rest)
        with (pre ++ best :: (mid ++ [item]) ++ rest)
        by (rewrite <- app_assoc; reflexivity).
      apply IH.
      * now constructor.
      * exact Hpre.
      * intros q Hq. apply in_app_or in Hq. destruct Hq as [Hq|[<-|[]]].
        -- now apply Hmid.
        -- exact Hle.
Qed.

Lemma keep_best_first_least (x : A) (rest : list A) :
  Forall dom (x :: rest) ->
  first_least
    (fold_left (fun best item => if better item best then item else best) rest x)
    (x :: rest).
Proof.
  intros Hdom.
  apply (keep_best_fold rest [] x [] Hdom); intros q [].
Qed.
End FirstBest.

Lemma min_first_least {A : Type} (ltb : A -> A -> bool) (key : A -> Z)
    (dom : A -> Prop) (l : list A) :
  (forall a b, dom a -> dom b -> (ltb a b = true <-> key a < key b)) ->
  Forall dom l -> l <> [] ->
  exists m, Py.min ltb l = inr m /\ first_least key m l.
Proof.
  intros Hkey Hdom Hne. destruct l as [|x rest]; [congruence|].
  eexists. split; [reflexivity|].
  apply (keep_best_first_least (fun a b => ltb a b) key dom Hkey x rest Hdom).
Qed.

(** [max] selects the first element that is least for the negated key. *)
Lemma max_first_least {A : Type} (ltb : A -> A -> bool) (key : A -> Z)
    (dom : A -> Prop) (l : list A) :
  (forall a b, dom a -> dom b -> (ltb a b = true <-> key a < key b)) ->
  Forall dom l -> l <> [] ->
  exists m, Py.max ltb l = inr m /\ first_least (fun a => - key a) m l.
Proof.
  intros Hkey Hdom Hne. destruct l as [|x rest]; [congruence|].
  eexists. split; [reflexivity|].
  apply (keep_best_first_least (fun a b => ltb b a) (fun a => - key a) dom);
    [|exact Hdom].
  intros a b Ha Hb. rewrite (Hkey b a Hb Ha). lia.
Qed.

Lemma index_first {A : Type} (eqb : A -> A -> bool) (v x : A) (pre post : list A) :
  (forall q, In q pre -> eqb q v = false) ->
  eqb x v = true ->
  Py.index eqb v (pre ++ x :: post) = inr (length pre).
Proof.
  intros Hpre Hx. induction pre as [|q pre IH]; simpl.
  - now rewrite Hx.
  - rewrite (Hpre q) by now left.
    rewrite IH by (intros; apply Hpre; now right). reflexivity.
Qed.

Lemma getitem_middle {A : Type} (x : A) (pre post : list A) :
  Py.getitem (pre ++ x :: post) (length pre) = inr x.
Proof.
  unfold Py.getitem. rewrite nth_error_app2 by lia.
  now rewrite Nat.sub_diag.
Qed.

(** ** Rounding to binary64 *)

Lemma point_eq_dec (p q : Point) : {p = q} + {p <> q}.
Proof. decide equality; apply Z.eq_dec. Defined.

Lemma nearest_even_ge (n d : Z) : n / d <= Py.nearest_even n d.
Proof.
  unfold Py.nearest_even.
  destruct (2 * (n mod d) ?= d); [destruct (Z.even (n / d))|..]; lia.
Qed.

Lemma spacing_pos (q : Z) : 0 < Py.spacing q.
Proof. unfold Py.spacing. apply Z.pow_pos_nonneg; lia. Qed.

Lemma spacing_le (q : Z) : 0 < q -> Py.spacing q <= q.
Proof.
  intros Hq. unfold Py.spacing.
  destruct (Z.log2_spec q Hq) as [Hlow _].
  pose proof (Z.log2_nonneg q) as Hlog.
  apply Z.le_trans with (2 ^ Z.log2 q); [|exact Hlow].
  apply Z.pow_le_mono_r; lia.
Qed.

Lemma round_pos_nonneg (n d : Z) :
  0 <= n -> 0 < d -> 0 <= Py.float_key (Py.round_pos n d).
Proof.
  intros Hn Hd. unfold Py.round_pos.
  pose proof (spacing_pos (n / d)) as Hs.
  set (s := Py.spacing (n / d)) in *.
  pose proof (nearest_even_ge n (d * s)) as Hge.
  assert (0 <= n / (d * s)) by (apply Z.div_pos; nia).
  destruct (_ <? Py.overflow_threshold); cbn [Py.float_key].
  - nia.
  - unfold Py.overflow_threshold. apply Z.pow_nonneg. lia.
Qed.

Lemma round_pos_positive (n d : Z) :
  0 < d -> d <= n -> 0 < Py.float_key (Py.round_pos n d).
Proof.
  intros Hd Hn. unfold Py.round_pos.
  assert (0 < n / d) as Hq by (apply Z.div_str_pos; lia).
  pose proof (spacing_pos (n / d)) as Hs.
  pose proof (spacing_le (n / d) Hq) as Hle.
  set (s := Py.spacing (n / d)) in *.
  pose proof (nearest_even_ge n (d * s)) as Hge.
  assert (0 < n / (d * s)) as Hpos.
  { rewrite <- Z.div_div by lia. apply Z.div_str_pos. lia. }
  destruct (_ <? Py.overflow_threshold); cbn [Py.float_key].
  - nia.
  - unfold Py.overflow_threshold. apply Z.pow_pos_nonneg; lia.
Qed.

Lemma round_zero (d : Z) : 0 < d -> Py.round 0 d = Py.Finite 0.
Proof.
  intros Hd. unfold Py.round, Py.round_pos. cbn [Z.ltb Z.compare].
  rewrite Z.div_0_l by lia.
  change (Py.spacing 0) with 1. rewrite !Z.mul_1_r.
  unfold Py.nearest_even. rewrite Z.div_0_l, Z.mod_0_l by lia.
  destruct (Z.compare_spec (2 * 0) d); try lia. reflexivity.
Qed.

Lemma float_key_neg (x : Py.float) : Py.float_key (Py.float_neg x) = - Py.float_key x.
Proof. destruct x as [k|[|]]; cbn; lia. Qed.

(** Rounding keeps the sign, and only values below one unit reach zero. *)
Lemma round_sign (n d : Z) :
  0 < d ->
  (0 <= n -> 0 <= Py.float_key (Py.round n d))
  /\ (n <= 0 -> Py.float_key (Py.round n d) <= 0)
  /\ (d <= n -> 0 < Py.float_key (Py.round n d))
  /\ (n <= - d -> Py.float_key (Py.round n d) < 0).
Proof.
  intros Hd. unfold Py.round.
  destruct (Z.ltb_spec n 0) as [Hneg|Hpos].
  - rewrite float_key_neg.
    pose proof (round_pos_nonneg (- n) d).
    pose proof (round_pos_positive (- n) d Hd).
    repeat split; intros; lia.
  - pose proof (round_pos_nonneg n d Hpos Hd).
    pose proof (round_pos_positive n d Hd).
    repeat split; intros; try lia.
    assert (n = 0) as -> by lia.
    pose proof (round_zero d Hd) as Hz. unfold Py.round in Hz. cbn in Hz.
    rewrite Hz. cbn. lia.
Qed.

Lemma float_key_zero (x : Py.float) : Py.float_key x = 0 <-> x = Py.Finite 0.
Proof.
  split; [|now intros ->].
  destruct x as [k|[|]]; cbn; [now intros ->|discriminate..].
Qed.

Lemma round_sqrt_positive (n : Z) : 0 < n -> 0 < Py.float_key (Py.round_sqrt n).
Proof.
  intros Hn. unfold Py.round_sqrt.
  assert (0 < Z.sqrt n) as Hr by (apply Z.sqrt_pos; exact Hn).
  pose proof (spacing_pos (Z.sqrt n)) as Hs.
  pose proof (spacing_le (Z.sqrt n) Hr) as Hle.
  set (s := Py.spacing (Z.sqrt n)) in *.
  assert (0 < Z.sqrt (n / (s * s))) as Hm.
  { apply Z.sqrt_pos. apply Z.div_str_pos. split; [nia|].
    pose proof (Z.sqrt_spec n (Z.lt_le_incl _ _ Hn)) as [Hlow _]. nia. }
  set (m := Z.sqrt (n / (s * s))) in *.
  assert (0 < match 4 * n ?= (2 * m + 1) * (2 * m + 1) * (s * s) with
              | Lt => m | Gt => m + 1 | Eq => if Z.even m then m else m + 1
              end) as Hk.
  { destruct (4 * n ?= _); [destruct (Z.even m)|..]; lia. }
  destruct (_ <? Py.overflow_threshold); cbn [Py.float_key].
  - nia.
  - unfold Py.overflow_threshold. apply Z.pow_pos_nonneg; lia.
Qed.

(** ** Conversion, distance and division *)

Lemma float_of_int_inl (n : Z) (e : Py.exception) :
  Py.float_of_int n = inl e -> e = Py.OverflowError.
Proof.
  unfold Py.float_of_int. destruct (Py.round _ 1); [discriminate|].
  now intros [= <-].
Qed.

Lemma float_of_int_inr (n : Z) (x : Py.float) :
  Py.float_of_int n = inr x -> exists k, x = Py.Finite k.
Proof.
  unfold Py.float_of_int. destruct (Py.round _ 1) as [k|]; [|discriminate].
  intros [= <-]. now exists k.
Qed.

Lemma float_of_int_cases (n : Z) :
  Py.float_of_int n = inl Py.OverflowError
  \/ exists k, Py.float_of_int n = inr (Py.Finite k).
Proof.
  destruct (Py.float_of_int n) as [e|x] eqn:E.
  - left. now rewrite (float_of_int_inl _ _ E).
  - right. destruct (float_of_int_inr _ _ E) as (k & ->). now exists k.
Qed.

Lemma float_of_int_zero : Py.float_of_int 0 = inr (Py.Finite 0).
Proof. reflexivity. Qed.

(** Converted integers keep their sign. *)
Lemma float_of_int_sign (n k : Z) :
  Py.float_of_int n = inr (Py.Finite k) ->
  (0 < n -> 0 < k) /\ (n < 0 -> k < 0) /\ (n = 0 -> k = 0).
Proof.
  unfold Py.float_of_int. intros H.
  destruct (Py.round (n * 2 ^ 1074) 1) as [k'|] eqn:E; [|discriminate].
  injection H as ->.
  assert (0 < 2 ^ 1074) as Hu by (apply Z.pow_pos_nonneg; lia).
  destruct (round_sign (n * 2 ^ 1074) 1 Z.lt_0_1) as (H1 & H2 & H3 & H4).
  rewrite E in H1, H2, H3, H4. cbn [Py.float_key] in *.
  repeat split; intros.
  - apply H3. nia.
  - apply H4. nia.
  - subst n. assert (0 <= k) by (apply H1; lia). assert (k <= 0) by (apply H2; lia). lia.
Qed.

Lemma float_sub_zero_iff (a b : Z) :
  Py.float_sub (Py.Finite a) (Py.Finite b) = Py.Finite 0 <-> a = b.
Proof.
  cbn [Py.float_sub]. split.
  - intros H. apply float_key_zero in H.
    destruct (round_sign (a - b) 1 Z.lt_0_1) as (_ & _ & H3 & H4). lia.
  - intros ->. rewrite Z.sub_diag. now apply round_zero.
Qed.

Lemma float_abs_zero_iff (x : Py.float) : Py.float_abs x = Py.Finite 0 <-> x = Py.Finite 0.
Proof.
  destruct x as [k|s]; cbn; split; intros H; try discriminate.
  - injection H as H. f_equal. lia.
  - injection H as ->. reflexivity.
Qed.

Lemma float_abs_nonneg (x : Py.float) : 0 <= Py.float_key (Py.float_abs x).
Proof.
  destruct x as [k|s]; cbn [Py.float_abs Py.float_key]; [lia|].
  unfold Py.overflow_threshold. apply Z.pow_nonneg. lia.
Qed.

Lemma vector_norm_zero_iff (x y : Py.float) :
  Py.vector_norm x y = Py.Finite 0 <-> x = Py.Finite 0 /\ y = Py.Finite 0.
Proof.
  destruct x as [a|], y as [b|]; cbn [Py.vector_norm];
    try (split; [discriminate|intros [H1 H2]; discriminate]).
  destruct (Z.eqb_spec a 0) as [->|Ha]; [destruct (Z.eqb_spec b 0) as [->|Hb]|];
    cbn [andb].
  - tauto.
  - split; [|intros [_ [= ?]]; contradiction].
    intros H. apply float_key_zero in H.
    pose proof (round_sqrt_positive (0 * 0 + b * b)). nia.
  - split; [|intros [[= ?] _]; contradiction].
    intros H. apply float_key_zero in H.
    pose proof (round_sqrt_positive (a * a + b * b)). nia.
Qed.

Lemma vector_norm_nonneg (x y : Py.float) : 0 <= Py.float_key (Py.vector_norm x y).
Proof.
  assert (0 <= Py.overflow_threshold) as Ht
    by (unfold Py.overflow_threshold; apply Z.pow_nonneg; lia).
  destruct x as [a|], y as [b|]; cbn [Py.vector_norm Py.float_key]; try exact Ht.
  destruct ((a =? 0) && (b =? 0)) eqn:E; cbn [Py.float_key]; [lia|].
  apply Z.lt_le_incl, round_sqrt_positive.
  apply andb_false_iff in E. destruct E as [E|E]; apply Z.eqb_neq in E; nia.
Qed.

(** [math.dist] raises when a coordinate is beyond the float range, and
    returns zero exactly when the two points have the same float images. *)
Lemma dist_cases (p q : Point) :
  (Py.dist p q = inl Py.OverflowError
   /\ (Py.float_of_int (fst p) = inl Py.OverflowError
       \/ Py.float_of_int (fst q) = inl Py.OverflowError
       \/ Py.float_of_int (snd p) = inl Py.OverflowError
       \/ Py.float_of_int (snd q) = inl Py.OverflowError))
  \/ (exists px qx py qy d,
         Py.float_of_int (fst p) = inr (Py.Finite px)
         /\ Py.float_of_int (fst q) = inr (Py.Finite qx)
         /\ Py.float_of_int (snd p) = inr (Py.Finite py)
         /\ Py.float_of_int (snd q) = inr (Py.Finite qy)
         /\ Py.dist p q = inr d
         /\ 0 <= Py.float_key d
         /\ (d = Py.Finite 0 <-> px = qx /\ py = qy)).
Proof.
  unfold Py.dist.
  destruct (float_of_int_cases (fst p)) as [E1|(px & E1)]; rewrite E1;
    [left; split; [reflexivity|tauto]|].
  destruct (float_of_int_cases (fst q)) as [E2|(qx & E2)]; rewrite E2;
    [left; split; [reflexivity|tauto]|].
  destruct (float_of_int_cases (snd p)) as [E3|(py & E3)]; rewrite E3;
    [left; split; [reflexivity|tauto]|].
  destruct (float_of_int_cases (snd q)) as [E4|(qy & E4)]; rewrite E4;
    [left; split; [reflexivity|tauto]|].
  right. exists px, qx, py, qy. eexists.
  split; [reflexivity|]. split; [reflexivity|]. split; [reflexivity|].
  split; [reflexivity|]. split; [reflexivity|].
  split; [apply vector_norm_nonneg|]. split.
  - intros Hz. apply vector_norm_zero_iff in Hz. destruct Hz as [Hx Hy].
    apply (proj1 (float_abs_zero_iff _)) in Hx.
    apply (proj1 (float_abs_zero_iff _)) in Hy.
    apply (proj1 (float_sub_zero_iff _ _)) in Hx.
    apply (proj1 (float_sub_zero_iff _ _)) in Hy. now split.
  - intros [-> ->]. apply vector_norm_zero_iff.
    split; apply float_abs_zero_iff, float_sub_zero_iff; reflexivity.
Qed.

Lemma distance_inl (line_start line_end point : Point) (e : Py.exception) :
  distance_from_line_to_point line_start line_end point = inl e ->
  e = Py.ZeroDivisionError \/ e = Py.OverflowError.
Proof.
  unfold distance_from_line_to_point, Py.truediv, Py.bind.
  destruct (dist_cases line_start line_end)
    as [[-> _]|(? & ? & ? & ? & d & _ & _ & _ & _ & -> & _)].
  - intros [= <-]. now right.
  - destruct (float_of_int_cases (cross_product line_start line_end point))
      as [->|(k & ->)].
    + intros [= <-]. now right.
    + destruct d as [[| |]|]; try discriminate. intros [= <-]. now left.
Qed.

(** ** The farthest point *)

Lemma for_append_Forall2 {A B : Type} (f : A -> Py.result B) (l : list A) (ys : list B) :
  Py.for_append f l = inr ys -> Forall2 (fun x y => f x = inr y) l ys.
Proof.
  revert ys. induction l as [|a l IH]; intros ys; cbn [Py.for_append].
  - intros [= <-]. constructor.
  - unfold Py.bind. destruct (f a) as [|b] eqn:Ea; [discriminate|].
    destruct (Py.for_append f l) as [|bs]; [discriminate|].
    intros [= <-]. constructor; [exact Ea|]. now apply IH.
Qed.

Lemma for_append_inl {A B : Type} (f : A -> Py.result B) (l : list A) (e : Py.exception) :
  Py.for_append f l = inl e -> exists a, In a l /\ f a = inl e.
Proof.
  induction l as [|a l IH]; cbn [Py.for_append]; [discriminate|].
  unfold Py.bind. destruct (f a) as [e'|b] eqn:Ea.
  - intros [= <-]. exists a. split; [now left|exact Ea].
  - destruct (Py.for_append f l) as [e'|bs]; [|discriminate].
    intros [= <-]. destruct (IH eq_refl) as (a' & Hin & Ha').
    exists a'. split; [now right|exact Ha'].
Qed.

Lemma Forall2_In_left {A B : Type} (R : A -> B -> Prop) (l : list A) (l' : list B) (a : A) :
  Forall2 R l l' -> In a l -> exists b, In b l' /\ R a b.
Proof.
  induction 1 as [|x y l l' Hxy _ IH]; [intros []|].
  intros [<-|Hin].
  - exists y. split; [now left|exact Hxy].
  - destruct (IH Hin) as (b & Hb & Hab). exists b. split; [now right|exact Hab].
Qed.

Lemma float_ltb_key (a b : Py.float) :
  True -> True -> (Py.float_ltb a b = true <-> Py.float_key a < Py.float_key b).
Proof. intros _ _. apply Z.ltb_lt. Qed.

Lemma farthest_point_empty (line_start line_end : Point) :
  farthest_point_from_line [] line_start line_end = inl Py.ValueError.
Proof. reflexivity. Qed.

(** What the selection in [farthest_point_from_line] amounts to: once every
    distance is computed, the point returned is the first one whose distance
    is the largest. *)
Lemma farthest_point_select
    (coordinates : list Point) (line_start line_end : Point) (distances : list Py.float) :
  coordinates <> [] ->
  Py.for_append (distance_from_line_to_point line_start line_end) coordinates
  = inr distances ->
  exists f before after d_f,
    farthest_point_from_line coordinates line_start line_end = inr f
    /\ coordinates = before ++ f :: after
    /\ distance_from_line_to_point line_start line_end f = inr d_f
    /\ (forall q, In q before ->
          exists d_q, distance_from_line_to_point line_start line_end q = inr d_q
                      /\ Py.float_key d_q < Py.float_key d_f)
    /\ (forall q, In q after ->
          exists d_q, distance_from_line_to_point line_start line_end q = inr d_q
                      /\ Py.float_key d_q <= Py.float_key d_f).
Proof.
  intros Hne Hfa.
  pose proof (for_append_Forall2 _ _ _ Hfa) as Hall.
  unfold farthest_point_from_line. rewrite Hfa. cbn [Py.bind].
  destruct (max_first_least Py.float_ltb Py.float_key (fun _ => True) distances
              float_ltb_key) as (m & Hmax & pre & post & Hsplit & Hpre & Hpost).
  { apply Forall_forall. auto. }
  { intros ->. inversion Hall. congruence. }
  rewrite Hmax. cbn [Py.bind]. subst distances.
  rewrite index_first.
  - cbn [Py.bind].
    apply Forall2_app_inv_r in Hall.
    destruct Hall as (before & rest & Hbefore & Hrest & ->).
    inversion Hrest as [|f d after post' Hf Hafter]; subst.
    rewrite <- (Forall2_length Hbefore), getitem_middle.
    exists f, before, after, m. repeat split; try assumption.
    + intros q Hq. destruct (Forall2_In_left _ _ _ _ Hbefore Hq) as (d & Hd & Hqd).
      exists d. split; [exact Hqd|]. specialize (Hpre d Hd). cbn beta in Hpre. lia.
    + intros q Hq. destruct (Forall2_In_left _ _ _ _ Hafter Hq) as (d & Hd & Hqd).
      exists d. split; [exact Hqd|]. specialize (Hpost d Hd). cbn beta in Hpost. lia.
  - intros q Hq. specialize (Hpre q Hq). cbn beta in Hpre.
    unfold Py.float_eqb. apply Z.eqb_neq. lia.
  - unfold Py.float_eqb. apply Z.eqb_refl.
Qed.

Lemma farthest_point_first_largest
    (coordinates : list Point) (line_start line_end f : Point) :
  farthest_point_from_line coordinates line_start line_end = inr f ->
  exists before after d_f,
    coordinates = before ++ f :: after
    /\ distance_from_line_to_point line_start line_end f = inr d_f
    /\ (forall q, In q before ->
          exists d_q, distance_from_line_to_point line_start line_end q = inr d_q
                      /\ Py.float_key d_q < Py.float_key d_f)
    /\ (forall q, In q after ->
          exists d_q, distance_from_line_to_point line_start line_end q = inr d_q
                      /\ Py.float_key d_q <= Py.float_key d_f).
Proof.
  intros Hf.
  destruct coordinates as [|p0 rest]; [discriminate Hf|].
  destruct (Py.for_append (distance_from_line_to_point line_start line_end) (p0 :: rest))
    as [e|distances] eqn:Hfa.
  { unfold farthest_point_from_line in Hf. rewrite Hfa in Hf. discriminate Hf. }
  destruct (farthest_point_select (p0 :: rest) line_start line_end distances)
    as (f' & before & after & d_f & Hf' & Hrest); [discriminate|exact Hfa|].
  rewrite Hf in Hf'. injection Hf' as <-.
  exists before, after, d_f. exact Hrest.
Qed.

(** The selector raises only what a distance raises. *)
Lemma farthest_point_inl (coordinates : list Point) (line_start line_end : Point)
    (e : Py.exception) :
  coordinates <> [] ->
  farthest_point_from_line coordinates line_start line_end = inl e ->
  exists q, In q coordinates
            /\ distance_from_line_to_point line_start line_end q = inl e.
Proof.
  intros Hne He.
  destruct (Py.for_append (distance_from_line_to_point line_start line_end) coordinates)
    as [e'|distances] eqn:Hfa.
  - unfold farthest_point_from_line in He. rewrite Hfa in He. injection He as <-.
    now apply for_append_inl.
  - destruct (farthest_point_select coordinates line_start line_end distances Hne Hfa)
      as (f & _ & _ & _ & Hf & _).
    rewrite Hf in He. discriminate He.
Qed.

(** ** Extremal points *)

Lemma find_leftmost_and_rightmost_empty :
  find_leftmost_and_rightmost [] = inl Py.ValueError.
Proof. reflexivity. Qed.

Lemma find_leftmost_and_rightmost_spec (coordinates : list Point) :
  coordinates <> [] ->
  exists leftmost rightmost,
    find_leftmost_and_rightmost coordinates = inr (leftmost, rightmost)
    /\ first_least (fun p : Point => fst p) leftmost coordinates
    /\ first_least (fun p : Point => - fst p) rightmost coordinates.
Proof.
  intros Hne.
  assert (Hkey : forall a b : Point, True -> True ->
                   ((fst a <? fst b) = true <-> fst a < fst b)).
  { intros a b _ _. apply Z.ltb_lt. }
  assert (Hdom : Forall (fun _ : Point => True) coordinates).
  { apply Forall_forall. auto. }
  destruct (min_first_least (fun a b : Point => fst a <? fst b) (fun p => fst p)
              (fun _ => True) coordinates Hkey Hdom Hne) as (l & Hmin & Hl).
  destruct (max_first_least (fun a b : Point => fst a <? fst b) (fun p => fst p)
              (fun _ => True) coordinates Hkey Hdom Hne) as (r & Hmax & Hr).
  exists l, r. unfold find_leftmost_and_rightmost.
  rewrite Hmin, Hmax. auto.
Qed.

(** ** Collinearity *)

Lemma cross_product_reverse (a b p : Point) :
  cross_product b a p = - cross_product a b p.
Proof. unfold cross_product. ring. Qed.

Lemma cross_product_same (a p : Point) : cross_product a a p = 0.
Proof. unfold cross_product. ring. Qed.

(** Two points on the line through a proper baseline are collinear with
    its start. *)
Lemma collinear_start (a b f p : Point) :
  a <> b ->
  cross_product a b f = 0 -> cross_product a b p = 0 ->
  cross_product a f p = 0.
Proof.
  destruct a as [ax ay], b as [bx b_y], f as [fx fy], p as [px py].
  unfold cross_product. cbn [fst snd]. intros Hne Hf Hp.
  set (X := (fx - ax) * (py - ay) - (px - ax) * (fy - ay)).
  assert ((bx - ax) * X = 0) as Hx.
  { replace ((bx - ax) * X)
      with ((fx - ax) * ((bx - ax) * (py - ay) - (px - ax) * (b_y - ay))
            - (px - ax) * ((bx - ax) * (fy - ay) - (fx - ax) * (b_y - ay)))
      by (unfold X; ring).
    rewrite Hf, Hp. ring. }
  assert ((b_y - ay) * X = 0) as Hy.
  { replace ((b_y - ay) * X)
      with ((fy - ay) * ((bx - ax) * (py - ay) - (px - ax) * (b_y - ay))
            - (py - ay) * ((bx - ax) * (fy - ay) - (fx - ax) * (b_y - ay)))
      by (unfold X; ring).
    rewrite Hf, Hp. ring. }
  apply Z.mul_eq_0 in Hx, Hy.
  destruct Hx as [Hx|Hx]; [|exact Hx].
  destruct Hy as [Hy|Hy]; [|exact Hy].
  exfalso. apply Hne. f_equal; lia.
Qed.

Lemma cross_product_shift (a b f p : Point) :
  cross_product f b p
  = cross_product a b p - cross_product a b f - cross_product a f p.
Proof. unfold cross_product. ring. Qed.

Lemma collinear_end (a b f p : Point) :
  a <> b ->
  cross_product a b f = 0 -> cross_product a b p = 0 ->
  cross_product f b p = 0.
Proof.
  intros Hne Hf Hp. rewrite (cross_product_shift a b f p), Hf, Hp.
  rewrite (collinear_start a b f p Hne Hf Hp). reflexivity.
Qed.

Lemma filter_is_above_positive (subset : list Point) (a b p : Point) :
  In p (filter (is_above a b) subset) -> 0 < cross_product a b p.
Proof.
  intros Hp. apply filter_In in Hp. destruct Hp as [_ Hp].
  unfold is_above in Hp. lia.
Qed.

Lemma filter_none {A : Type} (keep : A -> bool) (l : list A) :
  (forall a, In a l -> keep a = false) -> filter keep l = [].
Proof.
  induction l as [|a l IH]; simpl; intros H; [reflexivity|].
  rewrite (H a) by now left. apply IH. intros; apply H; now right.
Qed.

(** ** Outcomes of [quick_hull] *)

Lemma quick_hull_unfold (coordinates : list Point) (leftmost rightmost : Point) :
  find_leftmost_and_rightmost coordinates = inr (leftmost, rightmost) ->
  quick_hull coordinates
  = (above_convex_hull <-
       find_hull (filter (is_above leftmost rightmost) coordinates) leftmost rightmost ;;
     below_convex_hull <-
       find_hull (filter (fun p => negb (is_above leftmost rightmost p)) coordinates)
                 rightmost leftmost ;;
     Py.ret (leftmost :: above_convex_hull ++ below_convex_hull ++ [rightmost])).
Proof.
  intros Hlr. unfold quick_hull. rewrite Hlr. cbn [Py.bind].
  rewrite above_below_filter. reflexivity.
Qed.

Lemma quick_hull_empty : quick_hull [] = inl Py.ValueError.
Proof. reflexivity. Qed.

Lemma filter_all {A : Type} (keep : A -> bool) (l : list A) :
  (forall a, In a l -> keep a = true) -> filter keep l = l.
Proof.
  induction l as [|a l IH]; simpl; intros H; [reflexivity|].
  rewrite (H a) by now left. f_equal. apply IH. intros; apply H; now right.
Qed.

(** With a single x-coordinate both extremal points are the first point. *)
Lemma extremes_coincide (p0 : Point) (rest : list Point) :
  (forall q, In q rest -> fst q = fst p0) ->
  find_leftmost_and_rightmost (p0 :: rest) = inr (p0, p0).
Proof.
  intros Hsame.
  destruct (find_leftmost_and_rightmost_spec (p0 :: rest)) as (l & r & Hlr & Hl & Hr);
    [discriminate|].
  rewrite Hlr.
  assert (Hhead : forall key m, (forall q, In q rest -> key q = key p0) ->
                    first_least key m (p0 :: rest) -> m = p0).
  { intros key m Hk (pre & post & Hsplit & Hpre & _).
    destruct pre as [|q pre]; [now injection Hsplit|].
    injection Hsplit as <- Hrest. exfalso.
    assert (In m rest) as Hm by (rewrite Hrest; apply in_elt).
    specialize (Hpre p0 (or_introl eq_refl)). rewrite (Hk m Hm) in Hpre. lia. }
  rewrite (Hhead _ l Hsame Hl).
  rewrite (Hhead _ r) with (2 := Hr); [reflexivity|].
  intros q Hq. now rewrite (Hsame q Hq).
Qed.

(** * The claims *)

(** C1. Hull membership: whenever [quick_hull] returns a hull, every point
    of the hull is an element of the input sequence. *)
Theorem quick_hull_membership (coordinates hull : list Point) :
  quick_hull coordinates = inr hull ->
  forall p, In p hull -> In p coordinates.
Proof.
  intros Hrun.
  destruct coordinates as [|p0 rest]; [discriminate|].
  destruct (find_leftmost_and_rightmost_spec (p0 :: rest)) as (l & r & Hlr & Hl & Hr);
    [discriminate|].
  rewrite (quick_hull_unfold _ l r Hlr) in Hrun. unfold Py.bind in Hrun.
  destruct (find_hull _ l r) as [|above_hull] eqn:Ha; [discriminate|].
  destruct (find_hull _ r l) as [|below_hull] eqn:Hb; [discriminate|].
  injection Hrun as <-.
  apply find_hull_incl in Ha, Hb.
  intros p [<-|Hp].
  - eapply first_least_In; eassumption.
  - apply in_app_or in Hp. destruct Hp as [Hp|Hp].
    + apply Ha, filter_In in Hp. tauto.
    + apply in_app_or in Hp. destruct Hp as [Hp|[<-|[]]].
      * apply Hb, filter_In in Hp. tauto.
      * eapply first_least_In; eassumption.
Qed.

Lemma quick_hull_membership_witness :
  In (10, 10) [(0, 0); (0, 10); (10, 0); (10, 10); (5, 5)].
Proof.
  apply (quick_hull_membership
           [(0, 0); (0, 10); (10, 0); (10, 10); (5, 5)]
           [(0, 0); (0, 10); (10, 10); (0, 0); (10, 0)]).
  - vm_compute. reflexivity.
  - simpl. tauto.
Defined.

(** C2. Structure of the recursive hull builder: on the empty subset
    [find_hull] returns the empty sequence; on a non-empty subset it selects
    the farthest point [f] of the subset, partitions the whole subset against
    [(line_start, f)] and against [(f, line_end)], keeps the positive side of
    each, recurses on both with these baselines, and returns [f] followed by
    the first and then the second recursive result.  The farthest point is
    the first point of the subset whose distance from the baseline, as
    [distance_from_line_to_point] computes it, is the largest: every earlier
    point has a smaller distance and no later point a larger one. *)
Theorem find_hull_structure :
  (forall line_start line_end, find_hull [] line_start line_end = inr [])
  /\ (forall p rest line_start line_end,
        find_hull (p :: rest) line_start line_end
        = (f <- farthest_point_from_line (p :: rest) line_start line_end ;;
           right_hull <-
             find_hull
               (fst (find_coordinates_above_and_below_line (p :: rest) line_start f))
               line_start f ;;
           left_hull <-
             find_hull
               (fst (find_coordinates_above_and_below_line (p :: rest) f line_end))
               f line_end ;;
           Py.ret ([f] ++ right_hull ++ left_hull)))
  /\ (forall subset line_start line_end f,
        farthest_point_from_line subset line_start line_end = inr f ->
        In f subset)
  /\ (forall subset line_start line_end f,
        farthest_point_from_line subset line_start line_end = inr f ->
        exists before after d_f,
          subset = before ++ f :: after
          /\ distance_from_line_to_point line_start line_end f = inr d_f
          /\ (forall q, In q before ->
                exists d_q,
                  distance_from_line_to_point line_start line_end q = inr d_q
                  /\ Py.float_ltb d_q d_f = true)
          /\ (forall q, In q after ->
                exists d_q,
                  distance_from_line_to_point line_start line_end q = inr d_q
                  /\ Py.float_ltb d_f d_q = false)).
Proof.
  split; [|split; [|split]].
  - intros. apply find_hull_equation_1.
  - intros. apply find_hull_cons.
  - intros. eapply farthest_point_In; eassumption.
  - intros subset line_start line_end f Hf.
    destruct (farthest_point_first_largest _ _ _ _ Hf)
      as (before & after & d_f & Hsplit & Hdf & Hbefore & Hafter).
    exists before, after, d_f. split; [exact Hsplit|]. split; [exact Hdf|]. split.
    + intros q Hq. destruct (Hbefore q Hq) as (d_q & Hdq & Hlt).
      exists d_q. split; [exact Hdq|]. unfold Py.float_ltb. now apply Z.ltb_lt.
    + intros q Hq. destruct (Hafter q Hq) as (d_q & Hdq & Hle).
      exists d_q. split; [exact Hdq|]. unfold Py.float_ltb. apply Z.ltb_ge. exact Hle.
Qed.

Lemma find_hull_structure_witness :
  In (0, 10) [(5, 5); (0, 10); (10, 10)]
  /\ find_hull [(5, 5); (0, 10); (10, 10)] (0, 0) (10, 0) = inr [(0, 10); (10, 10)]
  /\ exists before after d_f,
       [(5, 5); (0, 10); (10, 10)] = before ++ (0, 10) :: after
       /\ distance_from_line_to_point (0, 0) (10, 0) (0, 10) = inr d_f
       /\ (forall q, In q before ->
             exists d_q,
               distance_from_line_to_point (0, 0) (10, 0) q = inr d_q
               /\ Py.float_ltb d_q d_f = true)
       /\ (forall q, In q after ->
             exists d_q,
               distance_from_line_to_point (0, 0) (10, 0) q = inr d_q
               /\ Py.float_ltb d_f d_q = false).
Proof.
  destruct find_hull_structure as (_ & Hcons & Hin & Hfar).
  assert (Hf : farthest_point_from_line [(5, 5); (0, 10); (10, 10)] (0, 0) (10, 0)
               = inr (0, 10)) by (vm_compute; reflexivity).
  split; [|split].
  - exact (Hin _ _ _ _ Hf).
  - rewrite Hcons. vm_compute. reflexivity.
  - exact (Hfar _ _ _ _ Hf).
Defined.

(** C3. Contract of the half-plane partitioner: the positive-side output
    holds exactly the points of strictly positive orientation, the other
    output exactly those of zero or negative orientation, both in input
    order; the baseline's own start and end, when in the set, go to the
    non-positive side like any other point. *)
Theorem partition_contract (coordinates : list Point) (line_start line_end : Point) :
  find_coordinates_above_and_below_line coordinates line_start line_end
  = (filter (fun p => cross_product line_start line_end p >? 0) coordinates,
     filter (fun p => cross_product line_start line_end p <=? 0) coordinates)
  /\ (forall p,
        In p (fst (find_coordinates_above_and_below_line coordinates line_start line_end))
        <-> In p coordinates /\ 0 < cross_product line_start line_end p)
  /\ (forall p,
        In p (snd (find_coordinates_above_and_below_line coordinates line_start line_end))
        <-> In p coordinates /\ cross_product line_start line_end p <= 0)
  /\ (In line_start coordinates ->
      In line_start
         (snd (find_coordinates_above_and_below_line coordinates line_start line_end)))
  /\ (In line_end coordinates ->
      In line_end
         (snd (find_coordinates_above_and_below_line coordinates line_start line_end))).
Proof.
  assert (Heq : find_coordinates_above_and_below_line coordinates line_start line_end
                = (filter (fun p => cross_product line_start line_end p >? 0) coordinates,
                   filter (fun p => cross_product line_start line_end p <=? 0) coordinates)).
  { rewrite above_below_filter. f_equal. apply filter_ext.
    intros p. unfold is_above. rewrite Z.gtb_ltb, Z.leb_antisym. reflexivity. }
  split; [exact Heq|]. rewrite Heq. cbn [fst snd].
  assert (Hbelow : forall p,
             In p (filter (fun p => cross_product line_start line_end p <=? 0) coordinates)
             <-> In p coordinates /\ cross_product line_start line_end p <= 0).
  { intros p. rewrite filter_In, Z.leb_le. reflexivity. }
  split; [|split; [exact Hbelow|split]].
  - intros p. rewrite filter_In, Z.gtb_ltb, Z.ltb_lt. reflexivity.
  - intros Hin. apply Hbelow. rewrite cross_product_start. split; [exact Hin|lia].
  - intros Hin. apply Hbelow. rewrite cross_product_end. split; [exact Hin|lia].
Qed.

Lemma partition_contract_witness :
  In (0, 0) (snd (find_coordinates_above_and_below_line
                    [(0, 0); (0, 10); (10, 0); (10, 10); (5, 5)] (0, 0) (10, 0)))
  /\ In (10, 0) (snd (find_coordinates_above_and_below_line
                        [(0, 0); (0, 10); (10, 0); (10, 10); (5, 5)] (0, 0) (10, 0))).
Proof.
  destruct (partition_contract [(0, 0); (0, 10); (10, 0); (10, 10); (5, 5)]
              (0, 0) (10, 0)) as (_ & _ & _ & Hstart & Hend).
  split; [apply Hstart|apply Hend]; simpl; tauto.
Defined.

(** C4. Termination: the farthest point [f] selected by a call of
    [find_hull] has zero orientation relative to both new baselines, is in
    neither positive-side subset, and both subsets are strictly shorter than
    the subset of the call; hence the recursive calls of [find_hull] form a
    well-founded relation: no call of [find_hull], and so no call of
    [quick_hull], recurses forever. *)
Theorem find_hull_terminates :
  (forall subset line_start line_end f,
      farthest_point_from_line subset line_start line_end = inr f ->
      let right_side :=
        fst (find_coordinates_above_and_below_line subset line_start f) in
      let left_side :=
        fst (find_coordinates_above_and_below_line subset f line_end) in
      cross_product line_start f f = 0
      /\ cross_product f line_end f = 0
      /\ ~ In f right_side
      /\ ~ In f left_side
      /\ (length right_side < length subset)%nat
      /\ (length left_side < length subset)%nat)
  /\ well_founded (fun callee caller => find_hull_call caller callee).
Proof.
  split.
  - intros subset line_start line_end f Hf right_side left_side.
    pose proof (cross_product_end line_start f) as Hend.
    pose proof (cross_product_start f line_end) as Hstart.
    repeat split.
    + exact Hend.
    + exact Hstart.
    + unfold right_side. rewrite above_below_filter. cbn [fst].
      intros Hin. apply filter_is_above_positive in Hin. lia.
    + unfold left_side. rewrite above_below_filter. cbn [fst].
      intros Hin. apply filter_is_above_positive in Hin. lia.
    + exact (above_start_farthest_shorter _ _ _ _ Hf).
    + exact (above_farthest_end_shorter _ _ _ _ Hf).
  - apply (well_founded_lt_compat _
             (fun call : list Point * Point * Point => length (fst (fst call)))).
    intros callee caller Hcall. destruct Hcall as [subset s e f _ Hf|subset s e f _ Hf];
      cbn [fst].
    + exact (above_start_farthest_shorter _ _ _ _ Hf).
    + exact (above_farthest_end_shorter _ _ _ _ Hf).
Qed.

Lemma find_hull_terminates_witness :
  cross_product (0, 0) (0, 10) (0, 10) = 0
  /\ Nat.lt (length (fst (find_coordinates_above_and_below_line
                            [(0, 10); (10, 10); (5, 5)] (0, 10) (10, 0))))
            (length [(0, 10); (10, 10); (5, 5)]).
Proof.
  destruct find_hull_terminates as (Hstep & _).
  destruct (Hstep [(0, 10); (10, 10); (5, 5)] (0, 0) (10, 0) (0, 10))
    as (Hzero & _ & _ & _ & _ & Hshorter).
  - vm_compute. reflexivity.
  - split; [exact Hzero|exact Hshorter].
Defined.

(** C5. Square with an interior point: on [[0,0],[0,10],[10,0],[10,10],[5,5]]
    [quick_hull] returns a hull whose points are exactly the four corners;
    [5,5] is not among them. *)
Theorem quick_hull_square_with_interior :
  exists hull,
    quick_hull [(0, 0); (0, 10); (10, 0); (10, 10); (5, 5)] = inr hull
    /\ (forall p, In p hull <-> In p [(0, 0); (0, 10); (10, 0); (10, 10)])
    /\ ~ In (5, 5) hull.
Proof.
  exists [(0, 0); (0, 10); (10, 10); (0, 0); (10, 0)].
  split; [vm_compute; reflexivity|]. split.
  - intros p. simpl. tauto.
  - simpl. intros H. repeat destruct H as [H|H]; try discriminate H; exact H.
Qed.

(** C6. Vertical line: on [[1,1],[1,5],[1,9]] the extremal point finder
    returns [1,1] both as leftmost and as rightmost, and [quick_hull] raises
    the division-by-zero exception of the distance evaluator instead of
    returning a hull. *)
Theorem quick_hull_vertical_line :
  find_leftmost_and_rightmost [(1, 1); (1, 5); (1, 9)] = inr ((1, 1), (1, 1))
  /\ quick_hull [(1, 1); (1, 5); (1, 9)] = inl Py.ZeroDivisionError.
Proof.
  split; vm_compute; reflexivity.
Qed.

Lemma distance_cases (line_start line_end point : Point) :
  (distance_from_line_to_point line_start line_end point = inl Py.OverflowError
   /\ (Py.float_of_int (fst line_start) = inl Py.OverflowError
       \/ Py.float_of_int (fst line_end) = inl Py.OverflowError
       \/ Py.float_of_int (snd line_start) = inl Py.OverflowError
       \/ Py.float_of_int (snd line_end) = inl Py.OverflowError
       \/ Py.float_of_int (cross_product line_start line_end point)
          = inl Py.OverflowError))
  \/ (exists px qx py qy a d,
         Py.float_of_int (fst line_start) = inr (Py.Finite px)
         /\ Py.float_of_int (fst line_end) = inr (Py.Finite qx)
         /\ Py.float_of_int (snd line_start) = inr (Py.Finite py)
         /\ Py.float_of_int (snd line_end) = inr (Py.Finite qy)
         /\ Py.float_of_int (cross_product line_start line_end point)
            = inr (Py.Finite a)
         /\ Py.dist line_start line_end = inr d
         /\ 0 <= Py.float_key d
         /\ ((px = qx /\ py = qy /\ d = Py.Finite 0
              /\ distance_from_line_to_point line_start line_end point
                 = inl Py.ZeroDivisionError)
             \/ ((px <> qx \/ py <> qy) /\ d <> Py.Finite 0
                 /\ distance_from_line_to_point line_start line_end point
                    = inr (Py.float_quotient (Py.Finite a) d)))).
Proof.
  unfold distance_from_line_to_point, Py.truediv.
  destruct (dist_cases line_start line_end)
    as [[Hd Hover]|(px & qx & py & qy & d & E1 & E2 & E3 & E4 & Hd & Hpos & Hz)];
    rewrite Hd; cbn [Py.bind].
  - left. split; [reflexivity|tauto].
  - destruct (float_of_int_cases (cross_product line_start line_end point))
      as [Ea|(a & Ea)]; rewrite Ea; cbn [Py.bind].
    + left. split; [reflexivity|tauto].
    + right. exists px, qx, py, qy, a, d.
      do 7 (split; [first [assumption|reflexivity]|]).
      destruct (Z.eq_dec px qx) as [Hx|Hx]; [destruct (Z.eq_dec py qy) as [Hy|Hy]|].
      * left. rewrite (proj2 Hz (conj Hx Hy)). auto.
      * right. assert (d <> Py.Finite 0) as Hnz by (intros Hd0; apply Hz in Hd0; tauto).
        split; [now right|]. split; [exact Hnz|].
        destruct d as [[| |]|]; try reflexivity. contradiction.
      * right. assert (d <> Py.Finite 0) as Hnz by (intros Hd0; apply Hz in Hd0; tauto).
        split; [now left|]. split; [exact Hnz|].
        destruct d as [[| |]|]; try reflexivity. contradiction.
Qed.

(** C7, as the code behaves.  [distance_from_line_to_point] raises
    [ZeroDivisionError] exactly when the four coordinates of the baseline and
    the orientation are within the float range and start and end have the
    same float images; that is so when start equals end, and also for
    distinct points that round to the same floats.  It raises [OverflowError]
    exactly when one of these five integers is beyond the float range, and
    raises nothing else.  Otherwise it returns the float quotient of the
    converted orientation of (start, end, point) by [math.dist(start, end)],
    which is then not zero. *)
Theorem distance_outcome (line_start line_end point : Point) :
  (distance_from_line_to_point line_start line_end point = inl Py.ZeroDivisionError
   <-> exists x y a,
         Py.float_of_int (fst line_start) = inr x
         /\ Py.float_of_int (fst line_end) = inr x
         /\ Py.float_of_int (snd line_start) = inr y
         /\ Py.float_of_int (snd line_end) = inr y
         /\ Py.float_of_int (cross_product line_start line_end point) = inr a)
  /\ (distance_from_line_to_point line_start line_end point = inl Py.OverflowError
      <-> Py.float_of_int (fst line_start) = inl Py.OverflowError
          \/ Py.float_of_int (fst line_end) = inl Py.OverflowError
          \/ Py.float_of_int (snd line_start) = inl Py.OverflowError
          \/ Py.float_of_int (snd line_end) = inl Py.OverflowError
          \/ Py.float_of_int (cross_product line_start line_end point)
             = inl Py.OverflowError)
  /\ (forall e,
        distance_from_line_to_point line_start line_end point = inl e ->
        e = Py.ZeroDivisionError \/ e = Py.OverflowError)
  /\ (forall q,
        distance_from_line_to_point line_start line_end point = inr q
        <-> exists d a,
              Py.dist line_start line_end = inr d
              /\ d <> Py.Finite 0
              /\ Py.float_of_int (cross_product line_start line_end point) = inr a
              /\ q = Py.float_quotient a d)
  /\ (line_start = line_end ->
      distance_from_line_to_point line_start line_end point = inl Py.ZeroDivisionError
      \/ distance_from_line_to_point line_start line_end point = inl Py.OverflowError).
Proof.
  destruct (distance_cases line_start line_end point)
    as [[Hrun Hover]
       |(px & qx & py & qy & a & d & E1 & E2 & E3 & E4 & Ea & Hd & _ &
         [(Hx & Hy & Hd0 & Hrun)|(Hxy & Hnz & Hrun)])];
    rewrite Hrun; (split; [|split; [|split; [|split]]]).
  - split; [discriminate|].
    intros (x & y & a & H1 & H2 & H3 & H4 & Ha).
    destruct Hover as [H|[H|[H|[H|H]]]]; congruence.
  - tauto.
  - intros e [= <-]. now right.
  - intros q. split; [discriminate|].
    intros (d & a & Hd & _ & Ha & _).
    destruct Hover as [H|[H|[H|[H|H]]]]; try congruence;
      unfold Py.dist in Hd; rewrite H in Hd; cbn [Py.bind] in Hd;
      repeat (destruct (Py.float_of_int _) in Hd; cbn [Py.bind] in Hd);
      discriminate Hd.
  - intros _. now right.
  - subst qx qy. split; [|reflexivity]. intros _.
    exists (Py.Finite px), (Py.Finite py), (Py.Finite a). auto.
  - split; [discriminate|]. intros [H|[H|[H|[H|H]]]]; congruence.
  - intros e [= <-]. now left.
  - intros q. split; [discriminate|].
    intros (d' & a' & Hd' & Hnz & _). congruence.
  - intros _. now left.
  - split; [discriminate|].
    intros (x & y & a' & H1 & H2 & H3 & H4 & _).
    rewrite E1 in H1. rewrite E2 in H2. rewrite E3 in H3. rewrite E4 in H4.
    exfalso. destruct Hxy as [Hne|Hne]; apply Hne; congruence.
  - split; [discriminate|]. intros [H|[H|[H|[H|H]]]]; congruence.
  - intros e He. discriminate He.
  - intros q. split.
    + intros [= <-]. exists d, (Py.Finite a). auto.
    + intros (d' & a' & Hd' & _ & Ha' & ->). congruence.
  - intros ->. exfalso.
    rewrite E1 in E2. rewrite E3 in E4.
    destruct Hxy as [Hne|Hne]; apply Hne; congruence.
Qed.

Lemma distance_outcome_witness :
  distance_from_line_to_point (7, 7) (7, 7) (0, 5) = inl Py.ZeroDivisionError
  \/ distance_from_line_to_point (7, 7) (7, 7) (0, 5) = inl Py.OverflowError.
Proof.
  destruct (distance_outcome (7, 7) (7, 7) (0, 5)) as (_ & _ & _ & _ & Hself).
  apply Hself. reflexivity.
Defined.

(** The claim C7 as the specification words it fails: with start
    [[2^53, 0]] and end [[2^53 + 1, 0]], which differ and have one float
    image, the division by [math.dist] raises [ZeroDivisionError]. *)
Lemma distance_raises_with_distinct_ends :
  ~ (distance_from_line_to_point (2 ^ 53, 0) (2 ^ 53 + 1, 0) (0, 5)
     = inl Py.ZeroDivisionError
     <-> (2 ^ 53, 0) = (2 ^ 53 + 1, 0)).
Proof.
  intros [Hraise _].
  assert (Hne : (2 ^ 53, 0) <> (2 ^ 53 + 1, 0)) by discriminate.
  apply Hne, Hraise. vm_compute. reflexivity.
Qed.

(** C8. Idempotence fails on [[1,0],[0,0],[2,0],[1,1]]: the hull returned
    for this input contains [1,0], a point of the lower baseline that was
    selected at distance zero, and running [quick_hull] on that hull returns
    a sequence without [1,0]. *)
Theorem quick_hull_rerun_drops_point :
  quick_hull [(1, 0); (0, 0); (2, 0); (1, 1)] = inr [(0, 0); (1, 1); (1, 0); (2, 0)]
  /\ quick_hull [(0, 0); (1, 1); (1, 0); (2, 0)] = inr [(0, 0); (1, 1); (0, 0); (2, 0)]
  /\ In (1, 0) [(0, 0); (1, 1); (1, 0); (2, 0)]
  /\ ~ In (1, 0) [(0, 0); (1, 1); (0, 0); (2, 0)].
Proof.
  split; [vm_compute; reflexivity|].
  split; [vm_compute; reflexivity|].
  split.
  - simpl. tauto.
  - simpl. intros H. repeat destruct H as [H|H]; try discriminate H; exact H.
Qed.

(** C9. Tie-breaking of the extremal point finder: on a non-empty sequence
    the leftmost result is the first point of least x-coordinate (every
    earlier point has a larger x, every later one an x at least as large) and
    the rightmost result is the first point of greatest x-coordinate; on
    [[2,0],[2,5],[7,1]] the leftmost result is [2,0]. *)
Theorem leftmost_rightmost_first_occurrence (coordinates : list Point) :
  coordinates <> [] ->
  (exists leftmost rightmost,
      find_leftmost_and_rightmost coordinates = inr (leftmost, rightmost)
      /\ (exists before after,
             coordinates = before ++ leftmost :: after
             /\ (forall q, In q before -> fst leftmost < fst q)
             /\ (forall q, In q after -> fst leftmost <= fst q))
      /\ (exists before after,
             coordinates = before ++ rightmost :: after
             /\ (forall q, In q before -> fst q < fst rightmost)
             /\ (forall q, In q after -> fst q <= fst rightmost)))
  /\ find_leftmost_and_rightmost [(2, 0); (2, 5); (7, 1)] = inr ((2, 0), (7, 1)).
Proof.
  intros Hne. split; [|reflexivity].
  destruct (find_leftmost_and_rightmost_spec coordinates Hne)
    as (l & r & Hlr & Hl & Hr).
  exists l, r. split; [exact Hlr|]. split.
  - exact Hl.
  - destruct Hr as (before & after & Hsplit & Hbefore & Hafter).
    exists before, after. split; [exact Hsplit|]. split.
    + intros q Hq. specialize (Hbefore q Hq). lia.
    + intros q Hq. specialize (Hafter q Hq). lia.
Qed.

Lemma leftmost_rightmost_first_occurrence_witness :
  exists leftmost rightmost,
    find_leftmost_and_rightmost [(7, 1); (2, 0); (7, 3); (2, 5)]
    = inr (leftmost, rightmost)
    /\ (exists before after,
           [(7, 1); (2, 0); (7, 3); (2, 5)] = before ++ leftmost :: after
           /\ (forall q, In q before -> fst leftmost < fst q)
           /\ (forall q, In q after -> fst leftmost <= fst q))
    /\ (exists before after,
           [(7, 1); (2, 0); (7, 3); (2, 5)] = before ++ rightmost :: after
           /\ (forall q, In q before -> fst q < fst rightmost)
           /\ (forall q, In q after -> fst q <= fst rightmost)).
Proof.
  apply (leftmost_rightmost_first_occurrence [(7, 1); (2, 0); (7, 3); (2, 5)]).
  discriminate.
Defined.

(** C10. Duplicate hull vertices: the points of
    [[0,0],[0,10],[10,0],[10,10],[5,5]] are pairwise distinct, yet the hull
    [quick_hull] returns has [0,0] at positions 0 and 3.  The leftmost point
    [0,0] has zero orientation relative to the outer baseline, so it is in
    the lower group, where [find_hull] selects it as farthest point and
    reports it a second time. *)
Theorem quick_hull_duplicate_vertex :
  NoDup [(0, 0); (0, 10); (10, 0); (10, 10); (5, 5)]
  /\ (exists hull,
         quick_hull [(0, 0); (0, 10); (10, 0); (10, 10); (5, 5)] = inr hull
         /\ nth_error hull 0 = Some (0, 0)
         /\ nth_error hull 3 = Some (0, 0))
  /\ find_leftmost_and_rightmost [(0, 0); (0, 10); (10, 0); (10, 10); (5, 5)]
     = inr ((0, 0), (10, 0))
  /\ cross_product (0, 0) (10, 0) (0, 0) = 0
  /\ In (0, 0)
        (snd (find_coordinates_above_and_below_line
                [(0, 0); (0, 10); (10, 0); (10, 10); (5, 5)] (0, 0) (10, 0)))
  /\ farthest_point_from_line
       (snd (find_coordinates_above_and_below_line
               [(0, 0); (0, 10); (10, 0); (10, 10); (5, 5)] (0, 0) (10, 0)))
       (10, 0) (0, 0)
     = inr (0, 0).
Proof.
  split.
  - repeat (constructor; [simpl; intuition congruence|]). constructor.
  - split.
    + exists [(0, 0); (0, 10); (10, 10); (0, 0); (10, 0)].
      split; [vm_compute; reflexivity|]. split; reflexivity.
    + repeat split; try reflexivity. simpl. tauto.
Qed.

(** * Further properties of the source functions *)

(** ** Helpers *)

Lemma filter_split_permutation (keep : Point -> bool) (l : list Point) :
  Permutation l (filter keep l ++ filter (fun p => negb (keep p)) l).
Proof.
  induction l as [|a l IH]; simpl; [constructor|].
  destruct (keep a); simpl.
  - now constructor.
  - apply Permutation_cons_app. exact IH.
Qed.

Lemma first_least_const_head (key : Point -> Z) (m p0 : Point) (rest : list Point) :
  (forall q, In q rest -> key q = key p0) ->
  first_least key m (p0 :: rest) -> m = p0.
Proof.
  intros Hk (pre & post & Hsplit & Hpre & _).
  destruct pre as [|q pre]; [now injection Hsplit|].
  injection Hsplit as <- Hrest. exfalso.
  assert (In m rest) as Hm by (rewrite Hrest; apply in_elt).
  specialize (Hpre p0 (or_introl eq_refl)). rewrite (Hk m Hm) in Hpre. lia.
Qed.

(** On a baseline whose start equals its end no distance is returned. *)
Lemma distance_degenerate (line_start point : Point) :
  distance_from_line_to_point line_start line_start point = inl Py.ZeroDivisionError
  \/ distance_from_line_to_point line_start line_start point = inl Py.OverflowError.
Proof.
  destruct (distance_cases line_start line_start point)
    as [[Hrun _]
       |(px & qx & py & qy & a & d & E1 & E2 & E3 & E4 & _ & _ & _ &
         [(_ & _ & _ & Hrun)|(Hxy & _ & _)])].
  - now right.
  - now left.
  - exfalso. rewrite E1 in E2. rewrite E3 in E4.
    destruct Hxy as [Hne|Hne]; apply Hne; congruence.
Qed.

Lemma farthest_point_degenerate (coordinates : list Point) (line_start : Point) :
  coordinates <> [] ->
  farthest_point_from_line coordinates line_start line_start = inl Py.ZeroDivisionError
  \/ farthest_point_from_line coordinates line_start line_start = inl Py.OverflowError.
Proof.
  intros Hne.
  destruct (farthest_point_from_line coordinates line_start line_start)
    as [e|f] eqn:Hf.
  - destruct (farthest_point_inl _ _ _ _ Hne Hf) as (q & _ & Hq).
    destruct (distance_inl _ _ _ _ Hq) as [-> | ->]; [now left|now right].
  - exfalso.
    destruct (farthest_point_first_largest _ _ _ _ Hf) as (_ & _ & d & _ & Hd & _).
    destruct (distance_degenerate line_start f) as [H|H]; congruence.
Qed.

Lemma find_hull_degenerate (subset : list Point) (line_start : Point) :
  subset <> [] ->
  find_hull subset line_start line_start = inl Py.ZeroDivisionError
  \/ find_hull subset line_start line_start = inl Py.OverflowError.
Proof.
  intros Hne. rewrite (find_hull_nonempty _ _ _ Hne). unfold find_hull_body.
  destruct (farthest_point_degenerate subset line_start Hne) as [-> | ->];
    [now left|now right].
Qed.

(** [find_hull] raises only what a distance raises. *)
Lemma find_hull_inl (subset : list Point) :
  forall line_start line_end e,
    find_hull subset line_start line_end = inl e ->
    e = Py.ZeroDivisionError \/ e = Py.OverflowError.
Proof.
  induction subset as [subset IH] using subset_length_ind.
  intros line_start line_end e Hrun.
  destruct subset as [|p0 rest].
  - rewrite find_hull_equation_1 in Hrun. discriminate Hrun.
  - rewrite find_hull_cons in Hrun. unfold find_hull_body, Py.bind in Hrun.
    destruct (farthest_point_from_line (p0 :: rest) line_start line_end)
      as [e'|f] eqn:Hf.
    + injection Hrun as <-.
      destruct (farthest_point_inl (p0 :: rest) _ _ _ ltac:(discriminate) Hf)
        as (q & _ & Hq).
      exact (distance_inl _ _ _ _ Hq).
    + destruct (find_hull _ line_start f) as [e'|rh] eqn:Hr.
      * injection Hrun as <-.
        exact (IH _ (above_start_farthest_shorter _ _ _ _ Hf) _ _ _ Hr).
      * destruct (find_hull _ f line_end) as [e'|lh] eqn:Hl; [|discriminate Hrun].
        injection Hrun as <-.
        exact (IH _ (above_farthest_end_shorter _ _ _ _ Hf) _ _ _ Hl).
Qed.

(** ** Properties *)

(** X1. Exceptions of [quick_hull]: it raises [ValueError] exactly on the
    empty sequence and never raises [IndexError]; on a non-empty sequence
    whose points all share one x-coordinate it raises [ZeroDivisionError] or
    [OverflowError]; so a hull is returned only when two input points differ
    in x. *)
Theorem quick_hull_raises (coordinates : list Point) :
  (quick_hull coordinates = inl Py.ValueError <-> coordinates = [])
  /\ quick_hull coordinates <> inl Py.IndexError
  /\ (coordinates <> [] ->
      (forall p q, In p coordinates -> In q coordinates -> fst p = fst q) ->
      quick_hull coordinates = inl Py.ZeroDivisionError
      \/ quick_hull coordinates = inl Py.OverflowError)
  /\ ((exists hull, quick_hull coordinates = inr hull) ->
      exists p q, In p coordinates /\ In q coordinates /\ fst p <> fst q).
Proof.
  destruct coordinates as [|p0 rest].
  { rewrite quick_hull_empty. split; [tauto|]. split; [discriminate|].
    split; [congruence|]. intros (hull & H). discriminate H. }
  assert (Hinl : forall e, quick_hull (p0 :: rest) = inl e ->
                   e = Py.ZeroDivisionError \/ e = Py.OverflowError).
  { intros e Hrun.
    destruct (find_leftmost_and_rightmost_spec (p0 :: rest)) as (l & r & Hlr & _);
      [discriminate|].
    rewrite (quick_hull_unfold _ l r Hlr) in Hrun. unfold Py.bind in Hrun.
    destruct (find_hull _ l r) as [e'|ah] eqn:Ha.
    - injection Hrun as <-. exact (find_hull_inl _ _ _ _ Ha).
    - destruct (find_hull _ r l) as [e'|bh] eqn:Hb; [|discriminate Hrun].
      injection Hrun as <-. exact (find_hull_inl _ _ _ _ Hb). }
  assert (Hsame : (forall p q, In p (p0 :: rest) -> In q (p0 :: rest) -> fst p = fst q) ->
                  quick_hull (p0 :: rest) = inl Py.ZeroDivisionError
                  \/ quick_hull (p0 :: rest) = inl Py.OverflowError).
  { intros Hx. rewrite (quick_hull_unfold _ p0 p0).
    2:{ apply extremes_coincide. intros q Hq. apply Hx; [now right|now left]. }
    rewrite filter_none.
    2:{ intros p _. unfold is_above. now rewrite cross_product_same. }
    rewrite find_hull_equation_1. cbn [Py.bind Py.ret].
    rewrite filter_all.
    2:{ intros p _. unfold is_above. now rewrite cross_product_same. }
    destruct (find_hull_degenerate (p0 :: rest) p0) as [-> | ->];
      [discriminate|now left|now right]. }
  split; [|split; [|split]].
  - split; [|discriminate]. intros H. destruct (Hinl _ H); discriminate.
  - intros H. destruct (Hinl _ H); discriminate.
  - intros _. exact Hsame.
  - intros (hull & Hrun).
    destruct (Forall_Exists_dec (fun q : Point => fst q = fst p0)
                (fun q => Z.eq_dec (fst q) (fst p0)) rest) as [Hall|Hex].
    + exfalso. rewrite Forall_forall in Hall.
      assert (forall q, In q (p0 :: rest) -> fst q = fst p0) as H.
      { intros q [<-|Hq]; [reflexivity|now apply Hall]. }
      destruct Hsame as [Hs|Hs]; [|congruence..].
      intros p q Hp Hq. now rewrite (H p Hp), (H q Hq).
    + apply Exists_exists in Hex. destruct Hex as (q & Hq & Hne).
      exists q, p0. split; [now right|]. split; [now left|exact Hne].
Qed.

Lemma quick_hull_raises_witness :
  quick_hull [(3, 1); (3, 8)] = inl Py.ZeroDivisionError
  \/ quick_hull [(3, 1); (3, 8)] = inl Py.OverflowError.
Proof.
  destruct (quick_hull_raises [(3, 1); (3, 8)]) as (_ & _ & Hsame & _).
  apply Hsame; [discriminate|].
  intros p q Hp Hq. simpl in Hp, Hq.
  destruct Hp as [<-|[<-|[]]]; destruct Hq as [<-|[<-|[]]]; reflexivity.
Defined.

(** X2. Exceptions of the farthest point selector: it raises [ValueError]
    exactly on the empty sequence and never raises [IndexError]; any other
    exception is the one [distance_from_line_to_point] raises for a point of
    the sequence; on a non-empty sequence and a baseline whose start equals
    its end it raises [ZeroDivisionError] or [OverflowError]. *)
Theorem farthest_point_raises (coordinates : list Point) (line_start line_end : Point) :
  (farthest_point_from_line coordinates line_start line_end = inl Py.ValueError
   <-> coordinates = [])
  /\ farthest_point_from_line coordinates line_start line_end <> inl Py.IndexError
  /\ (forall e,
        coordinates <> [] ->
        farthest_point_from_line coordinates line_start line_end = inl e ->
        exists q, In q coordinates
                  /\ distance_from_line_to_point line_start line_end q = inl e)
  /\ (coordinates <> [] -> line_start = line_end ->
      farthest_point_from_line coordinates line_start line_end
      = inl Py.ZeroDivisionError
      \/ farthest_point_from_line coordinates line_start line_end
         = inl Py.OverflowError).
Proof.
  destruct coordinates as [|p0 rest].
  { rewrite farthest_point_empty. split; [tauto|]. split; [discriminate|].
    split; congruence. }
  assert (Hne : p0 :: rest <> []) by discriminate.
  assert (Hinl : forall e,
             farthest_point_from_line (p0 :: rest) line_start line_end = inl e ->
             e = Py.ZeroDivisionError \/ e = Py.OverflowError).
  { intros e He. destruct (farthest_point_inl _ _ _ _ Hne He) as (q & _ & Hq).
    exact (distance_inl _ _ _ _ Hq). }
  split; [|split; [|split]].
  - split; [|discriminate]. intros H. destruct (Hinl _ H); discriminate.
  - intros H. destruct (Hinl _ H); discriminate.
  - intros e _ He. exact (farthest_point_inl _ _ _ _ Hne He).
  - intros _ <-. now apply farthest_point_degenerate.
Qed.

Lemma farthest_point_raises_witness :
  farthest_point_from_line [(5, 7)] (2, 2) (2, 2) = inl Py.ZeroDivisionError
  \/ farthest_point_from_line [(5, 7)] (2, 2) (2, 2) = inl Py.OverflowError.
Proof.
  destruct (farthest_point_raises [(5, 7)] (2, 2) (2, 2)) as (_ & _ & _ & Hsame).
  apply Hsame; [discriminate|reflexivity].
Defined.

(** X4. The partitioner neither loses nor duplicates points: its two
    outputs together are a permutation of the input, so their lengths add up
    to the length of the input. *)
Theorem partition_preserves_points (coordinates : list Point) (line_start line_end : Point) :
  Permutation coordinates
    (fst (find_coordinates_above_and_below_line coordinates line_start line_end)
     ++ snd (find_coordinates_above_and_below_line coordinates line_start line_end))
  /\ (length (fst (find_coordinates_above_and_below_line coordinates line_start line_end))
      + length (snd (find_coordinates_above_and_below_line coordinates line_start line_end))
      = length coordinates)%nat.
Proof.
  rewrite above_below_filter. cbn [fst snd]. split.
  - apply filter_split_permutation.
  - apply filter_length.
Qed.

(** X5. Reversing the baseline flips the sign of the orientation: the
    positive side of (end, start) holds exactly the points of strictly
    negative orientation relative to (start, end), all of which are in the
    non-positive output for (start, end). *)
Theorem partition_reversed_baseline (coordinates : list Point) (line_start line_end : Point) :
  (forall p, cross_product line_end line_start p = - cross_product line_start line_end p)
  /\ fst (find_coordinates_above_and_below_line coordinates line_end line_start)
     = filter (fun p => cross_product line_start line_end p <? 0) coordinates
  /\ (forall p,
        In p (fst (find_coordinates_above_and_below_line coordinates line_end line_start))
        -> In p (snd (find_coordinates_above_and_below_line coordinates line_start line_end))).
Proof.
  split; [intros p; apply cross_product_reverse|].
  rewrite !above_below_filter. cbn [fst snd]. split.
  - apply filter_ext. intros p. unfold is_above.
    rewrite cross_product_reverse, Z.gtb_ltb.
    destruct (Z.ltb_spec 0 (- cross_product line_start line_end p));
      destruct (Z.ltb_spec (cross_product line_start line_end p) 0); lia.
  - intros p Hp. apply filter_In in Hp. destruct Hp as [Hin Hp].
    apply filter_In. split; [exact Hin|].
    unfold is_above in *. rewrite cross_product_reverse in Hp.
    destruct (Z.gtb_spec (cross_product line_start line_end p) 0); [lia|reflexivity].
Qed.

Lemma partition_reversed_baseline_witness :
  In (5, -5) (snd (find_coordinates_above_and_below_line
                     [(5, 5); (5, -5); (0, 0)] (0, 0) (10, 0))).
Proof.
  destruct (partition_reversed_baseline [(5, 5); (5, -5); (0, 0)] (0, 0) (10, 0))
    as (_ & _ & Hin).
  apply Hin. simpl. tauto.
Defined.

(** X6. Exceptions of the recursive hull builder: [find_hull] raises
    nothing but [ZeroDivisionError] and [OverflowError], and on a non-empty
    subset with a baseline whose start equals its end it raises one of the
    two. *)
Theorem find_hull_raises (subset : list Point) (line_start line_end : Point) :
  (forall e,
      find_hull subset line_start line_end = inl e ->
      e = Py.ZeroDivisionError \/ e = Py.OverflowError)
  /\ (subset <> [] -> line_start = line_end ->
      find_hull subset line_start line_end = inl Py.ZeroDivisionError
      \/ find_hull subset line_start line_end = inl Py.OverflowError).
Proof.
  split.
  - intros e. apply find_hull_inl.
  - intros Hne <-. now apply find_hull_degenerate.
Qed.

Lemma find_hull_raises_witness :
  find_hull [(5, 7)] (2, 2) (2, 2) = inl Py.ZeroDivisionError
  \/ find_hull [(5, 7)] (2, 2) (2, 2) = inl Py.OverflowError.
Proof.
  destruct (find_hull_raises [(5, 7)] (2, 2) (2, 2)) as (_ & Hsame).
  apply Hsame; [discriminate|reflexivity].
Defined.

(** X7. Equal computed distances can make [find_hull] report a point
    twice: the converted orientations of [[1, 2^53]] and [[1, 2^53 + 1]]
    relative to ([[0, 0]], [[2, 0]]) are the same float, the first point is
    selected, and the second is above both new baselines, so it is reported
    by both recursive calls and the result is longer than the subset. *)
Theorem find_hull_repeats_point :
  NoDup [(1, 2 ^ 53); (1, 2 ^ 53 + 1)]
  /\ distance_from_line_to_point (0, 0) (2, 0) (1, 2 ^ 53)
     = distance_from_line_to_point (0, 0) (2, 0) (1, 2 ^ 53 + 1)
  /\ cross_product (0, 0) (2, 0) (1, 2 ^ 53) < cross_product (0, 0) (2, 0) (1, 2 ^ 53 + 1)
  /\ 0 < cross_product (0, 0) (1, 2 ^ 53) (1, 2 ^ 53 + 1)
  /\ 0 < cross_product (1, 2 ^ 53) (2, 0) (1, 2 ^ 53 + 1)
  /\ find_hull [(1, 2 ^ 53); (1, 2 ^ 53 + 1)] (0, 0) (2, 0)
     = inr [(1, 2 ^ 53); (1, 2 ^ 53 + 1); (1, 2 ^ 53 + 1)].
Proof.
  split.
  { constructor; [intros [H|[]]; vm_compute in H; discriminate H|].
    constructor; [intros []|constructor]. }
  repeat split; vm_compute; reflexivity.
Qed.

(** Shape of a hull returned by [quick_hull]. *)
Lemma quick_hull_inr_inv (coordinates hull : list Point) :
  quick_hull coordinates = inr hull ->
  exists leftmost rightmost above_hull below_hull,
    find_leftmost_and_rightmost coordinates = inr (leftmost, rightmost)
    /\ first_least (fun p : Point => fst p) leftmost coordinates
    /\ first_least (fun p : Point => - fst p) rightmost coordinates
    /\ leftmost <> rightmost
    /\ find_hull (filter (is_above leftmost rightmost) coordinates)
                 leftmost rightmost = inr above_hull
    /\ find_hull (filter (fun p => negb (is_above leftmost rightmost p)) coordinates)
                 rightmost leftmost = inr below_hull
    /\ hull = leftmost :: above_hull ++ below_hull ++ [rightmost].
Proof.
  intros Hrun.
  destruct coordinates as [|p0 rest]; [discriminate|].
  destruct (find_leftmost_and_rightmost_spec (p0 :: rest)) as (l & r & Hlr & Hl & Hr);
    [discriminate|].
  rewrite (quick_hull_unfold _ l r Hlr) in Hrun. unfold Py.bind in Hrun.
  destruct (find_hull _ l r) as [|above_hull] eqn:Ha; [discriminate|].
  destruct (find_hull _ r l) as [|below_hull] eqn:Hb; [discriminate|].
  injection Hrun as <-.
  exists l, r, above_hull, below_hull. repeat split; try assumption.
  intros <-.
  assert (filter (fun p => negb (is_above l l p)) (p0 :: rest) <> []) as Hnil.
  { intros Hnil.
    assert (In l (filter (fun p => negb (is_above l l p)) (p0 :: rest))) as Hin.
    { apply filter_In. split; [eapply first_least_In; eassumption|].
      unfold is_above. now rewrite cross_product_same. }
    rewrite Hnil in Hin. destruct Hin. }
  destruct (find_hull_degenerate _ l Hnil) as [H|H]; congruence.
Qed.
(** X8. A hull returned by [quick_hull] is the leftmost point, then points
    strictly on the positive side of (leftmost, rightmost), then at least one
    point not on that side, then the rightmost point.  Leftmost and rightmost
    have different x-coordinates, the x-coordinate of every input point lies
    between theirs, and the hull has at least 3 entries. *)
Theorem quick_hull_shape (coordinates hull : list Point) :
  quick_hull coordinates = inr hull ->
  exists leftmost rightmost above_hull below_hull,
    find_leftmost_and_rightmost coordinates = inr (leftmost, rightmost)
    /\ hull = [leftmost] ++ above_hull ++ below_hull ++ [rightmost]
    /\ fst leftmost < fst rightmost
    /\ (forall p, In p coordinates -> fst leftmost <= fst p <= fst rightmost)
    /\ (forall p, In p above_hull ->
          In p coordinates /\ 0 < cross_product leftmost rightmost p)
    /\ below_hull <> []
    /\ (forall p, In p below_hull ->
          In p coordinates /\ cross_product leftmost rightmost p <= 0)
    /\ (3 <= length hull)%nat.
Proof.
  intros Hrun.
  destruct (quick_hull_inr_inv _ _ Hrun)
    as (l & r & ah & bh & Hlr & Hl & Hr & Hne & Ha & Hb & ->).
  exists l, r, ah, bh.
  assert (Hbound : forall p, In p coordinates -> fst l <= fst p <= fst r).
  { intros p Hp. pose proof (first_least_le _ _ _ Hl p Hp).
    pose proof (first_least_le _ _ _ Hr p Hp). cbn beta in *. lia. }
  assert (Hlin : In l coordinates) by (eapply first_least_In; eassumption).
  assert (Hbne : bh <> []).
  { intros ->.
    destruct (filter (fun p => negb (is_above l r p)) coordinates) as [|b0 brest] eqn:Eb.
    - assert (In l (filter (fun p => negb (is_above l r p)) coordinates)) as Hin.
      { apply filter_In. split; [exact Hlin|].
        unfold is_above. now rewrite cross_product_start. }
      rewrite Eb in Hin. destruct Hin.
    - apply find_hull_inr_inv in Hb; [|discriminate].
      destruct Hb as (? & ? & ? & _ & _ & _ & Habs). discriminate Habs. }
  split; [exact Hlr|]. split; [reflexivity|]. split.
  { destruct (Z.eq_dec (fst l) (fst r)) as [Heq|Hneq].
    - exfalso. destruct coordinates as [|p0 rest]; [destruct Hlin|].
      rewrite extremes_coincide in Hlr.
      + injection Hlr as <- <-. now apply Hne.
      + intros q Hq.
        pose proof (Hbound q (or_intror Hq)). pose proof (Hbound p0 (or_introl eq_refl)).
        lia.
    - pose proof (Hbound l Hlin). lia. }
  split; [exact Hbound|].
  pose proof (find_hull_incl _ _ _ _ Ha) as Hia.
  pose proof (find_hull_incl _ _ _ _ Hb) as Hib.
  split.
  { intros p Hp. apply Hia in Hp. apply filter_In in Hp.
    destruct Hp as [Hin Hp]. unfold is_above in Hp. split; [exact Hin|lia]. }
  split; [exact Hbne|]. split.
  { intros p Hp. apply Hib in Hp. apply filter_In in Hp.
    destruct Hp as [Hin Hp]. unfold is_above in Hp. split; [exact Hin|].
    destruct (Z.gtb_spec (cross_product l r p) 0); [discriminate|lia]. }
  cbn [app length]. rewrite !length_app. cbn [length].
  destruct bh as [|b0 bh]; [congruence|]. cbn [length]. lia.
Qed.

Lemma quick_hull_shape_witness :
  exists leftmost rightmost above_hull below_hull,
    find_leftmost_and_rightmost [(0, 0); (4, 0); (2, 4)] = inr (leftmost, rightmost)
    /\ [(0, 0); (2, 4); (0, 0); (4, 0)]
       = [leftmost] ++ above_hull ++ below_hull ++ [rightmost]
    /\ fst leftmost < fst rightmost
    /\ (forall p, In p [(0, 0); (4, 0); (2, 4)] ->
          fst leftmost <= fst p <= fst rightmost)
    /\ (forall p, In p above_hull ->
          In p [(0, 0); (4, 0); (2, 4)] /\ 0 < cross_product leftmost rightmost p)
    /\ below_hull <> []
    /\ (forall p, In p below_hull ->
          In p [(0, 0); (4, 0); (2, 4)] /\ cross_product leftmost rightmost p <= 0)
    /\ Nat.le 3 (length [(0, 0); (2, 4); (0, 0); (4, 0)]).
Proof.
  apply (quick_hull_shape [(0, 0); (4, 0); (2, 4)] [(0, 0); (2, 4); (0, 0); (4, 0)]).
  vm_compute. reflexivity.
Defined.

Lemma distance_same_orientation (line_start line_end p q : Point) :
  cross_product line_start line_end p = cross_product line_start line_end q ->
  distance_from_line_to_point line_start line_end p
  = distance_from_line_to_point line_start line_end q.
Proof.
  intros H. unfold distance_from_line_to_point. now rewrite H.
Qed.

(** X9. Collinear input: when every input point lies on the line through
    the two extremal points and [quick_hull] returns, it returns exactly
    three entries: leftmost, the first input point, rightmost. *)
Theorem quick_hull_collinear
    (p0 : Point) (rest : list Point) (leftmost rightmost : Point) (hull : list Point) :
  find_leftmost_and_rightmost (p0 :: rest) = inr (leftmost, rightmost) ->
  (forall p, In p (p0 :: rest) -> cross_product leftmost rightmost p = 0) ->
  quick_hull (p0 :: rest) = inr hull ->
  hull = [leftmost; p0; rightmost].
Proof.
  intros Hlr Hcol Hrun.
  destruct (quick_hull_inr_inv _ _ Hrun)
    as (l & r & ah & bh & Hlr' & _ & _ & Hne & Ha & Hb & ->).
  rewrite Hlr in Hlr'. injection Hlr' as <- <-.
  assert (Hrl : rightmost <> leftmost) by congruence.
  assert (Hcol' : forall p, In p (p0 :: rest) -> cross_product rightmost leftmost p = 0).
  { intros p Hp. rewrite cross_product_reverse, (Hcol p Hp). reflexivity. }
  rewrite filter_none in Ha.
  2:{ intros p Hp. unfold is_above. now rewrite (Hcol p Hp). }
  rewrite find_hull_equation_1 in Ha. injection Ha as <-.
  rewrite filter_all in Hb.
  2:{ intros p Hp. unfold is_above. now rewrite (Hcol p Hp). }
  apply find_hull_inr_inv in Hb; [|discriminate].
  destruct Hb as (f & rh & lh & Hf & Hr & Hl & ->).
  assert (f = p0) as ->.
  { destruct (farthest_point_first_largest _ _ _ _ Hf)
      as (before & after & d_f & Hsplit & Hdf & Hbefore & _).
    destruct before as [|q before]; [now injection Hsplit|].
    exfalso. injection Hsplit as <- Hrest.
    destruct (Hbefore p0 (or_introl eq_refl)) as (d_q & Hdq & Hlt).
    assert (In f (p0 :: rest)) as Hin by (right; rewrite Hrest; apply in_elt).
    rewrite (distance_same_orientation rightmost leftmost p0 f) in Hdq.
    - rewrite Hdf in Hdq. injection Hdq as <-. lia.
    - now rewrite (Hcol' p0 (or_introl eq_refl)), (Hcol' f Hin). }
  rewrite above_below_filter in Hr, Hl. cbn [fst] in Hr, Hl.
  rewrite (filter_none (is_above rightmost p0)) in Hr.
  2:{ intros p Hp. unfold is_above.
      rewrite (collinear_start rightmost leftmost p0 p Hrl
                 (Hcol' p0 (or_introl eq_refl)) (Hcol' p Hp)).
      reflexivity. }
  rewrite (filter_none (is_above p0 leftmost)) in Hl.
  2:{ intros p Hp. unfold is_above.
      rewrite (collinear_end rightmost leftmost p0 p Hrl
                 (Hcol' p0 (or_introl eq_refl)) (Hcol' p Hp)).
      reflexivity. }
  rewrite find_hull_equation_1 in Hr, Hl. injection Hr as <-. injection Hl as <-.
  reflexivity.
Qed.

Lemma quick_hull_collinear_witness :
  [(0, 0); (1, 1); (3, 3)] = [(0, 0); (1, 1); (3, 3)].
Proof.
  apply (quick_hull_collinear (1, 1) [(0, 0); (3, 3); (2, 2)] (0, 0) (3, 3)).
  - reflexivity.
  - intros p Hp. simpl in Hp.
    repeat destruct Hp as [<-|Hp]; try reflexivity. destruct Hp.
  - vm_compute. reflexivity.
Defined.

(** X10. What the extremal point finder returns: both points are input
    points, the x-coordinate of every input point lies between theirs, and
    the two results are the same point exactly when all input points share
    one x-coordinate. *)
Theorem extremes_bound_and_coincide (coordinates : list Point) (leftmost rightmost : Point) :
  find_leftmost_and_rightmost coordinates = inr (leftmost, rightmost) ->
  In leftmost coordinates
  /\ In rightmost coordinates
  /\ (forall p, In p coordinates -> fst leftmost <= fst p <= fst rightmost)
  /\ (leftmost = rightmost
      <-> forall p q, In p coordinates -> In q coordinates -> fst p = fst q).
Proof.
  intros Hlr.
  destruct coordinates as [|p0 rest]; [discriminate Hlr|].
  destruct (find_leftmost_and_rightmost_spec (p0 :: rest)) as (l & r & Hlr' & Hl & Hr);
    [discriminate|].
  rewrite Hlr in Hlr'. injection Hlr' as <- <-.
  assert (Hbound : forall p, In p (p0 :: rest) -> fst leftmost <= fst p <= fst rightmost).
  { intros p Hp. pose proof (first_least_le _ _ _ Hl p Hp).
    pose proof (first_least_le _ _ _ Hr p Hp). cbn beta in *. lia. }
  split; [eapply first_least_In; eassumption|].
  split; [eapply first_least_In; eassumption|].
  split; [exact Hbound|]. split.
  - intros <- p q Hp Hq. pose proof (Hbound p Hp). pose proof (Hbound q Hq). lia.
  - intros Hsame. rewrite extremes_coincide in Hlr.
    + now injection Hlr as <- <-.
    + intros q Hq. apply Hsame; [now right|now left].
Qed.

Lemma extremes_bound_and_coincide_witness :
  In (2, 0) [(2, 0); (2, 5); (7, 1)] /\ In (7, 1) [(2, 0); (2, 5); (7, 1)].
Proof.
  destruct (extremes_bound_and_coincide [(2, 0); (2, 5); (7, 1)] (2, 0) (7, 1))
    as (Hl & Hr & _).
  - reflexivity.
  - split; [exact Hl|exact Hr].
Defined.

(** X11. One sign convention: when [distance_from_line_to_point] returns,
    the distance of a point of zero orientation is zero, that of a point of
    positive orientation is not negative and that of a point of negative
    orientation is not positive; so a positive distance is returned only for
    points that the partitioner puts on the positive side of the baseline. *)
Theorem distance_sign_agrees
    (coordinates : list Point) (line_start line_end point : Point) (d : Py.float) :
  distance_from_line_to_point line_start line_end point = inr d ->
  (cross_product line_start line_end point = 0 -> d = Py.Finite 0)
  /\ (0 < cross_product line_start line_end point ->
      Py.float_ltb d (Py.Finite 0) = false)
  /\ (cross_product line_start line_end point < 0 ->
      Py.float_ltb (Py.Finite 0) d = false)
  /\ (In point coordinates ->
      Py.float_ltb (Py.Finite 0) d = true ->
      In point (fst (find_coordinates_above_and_below_line
                       coordinates line_start line_end))).
Proof.
  intros Hrun.
  destruct (distance_cases line_start line_end point)
    as [[Hrun' _]
       |(px & qx & py & qy & a & n & _ & _ & _ & _ & Ea & _ & Hpos &
         [(_ & _ & _ & Hrun')|(_ & Hnz & Hrun')])];
    rewrite Hrun in Hrun'; try discriminate Hrun'.
  injection Hrun' as ->.
  destruct (float_of_int_sign _ _ Ea) as (Hgt & Hlt & Heq).
  set (c := cross_product line_start line_end point) in *.
  assert (0 < 2 ^ 1074) as Hu by (apply Z.pow_pos_nonneg; lia).
  assert (Hsign : (0 <= a -> 0 <= Py.float_key (Py.float_quotient (Py.Finite a) n))
                  /\ (a <= 0 -> Py.float_key (Py.float_quotient (Py.Finite a) n) <= 0)
                  /\ (a = 0 -> Py.float_quotient (Py.Finite a) n = Py.Finite 0)).
  { destruct n as [b|s]; cbn [Py.float_quotient Py.float_key] in *.
    - assert (0 < b) as Hb.
      { destruct (Z.eq_dec b 0) as [->|]; [contradiction|lia]. }
      destruct (Z.ltb_spec 0 b); [|lia].
      destruct (round_sign (a * 2 ^ 1074) b Hb) as (H1 & H2 & _).
      split; [intros; apply H1; nia|]. split; [intros; apply H2; nia|].
      intros ->. now apply round_zero.
    - split; [lia|]. split; [lia|reflexivity]. }
  destruct Hsign as (H1 & H2 & H3).
  split; [|split; [|split]].
  - intros Hc. apply H3, Heq, Hc.
  - intros Hc. unfold Py.float_ltb. apply Z.ltb_ge. cbn [Py.float_key].
    apply H1. specialize (Hgt Hc). lia.
  - intros Hc. unfold Py.float_ltb. apply Z.ltb_ge. cbn [Py.float_key].
    apply H2. specialize (Hlt Hc). lia.
  - intros Hin Hd. unfold Py.float_ltb in Hd. apply Z.ltb_lt in Hd.
    change (0 < Py.float_key (Py.float_quotient (Py.Finite a) n)) in Hd.
    rewrite above_below_filter. cbn [fst]. apply filter_In. split; [exact Hin|].
    unfold is_above. fold c. apply Z.gtb_lt.
    destruct (Z.lt_trichotomy c 0) as [Hc|[Hc|Hc]]; [|..|exact Hc].
    + specialize (Hlt Hc). assert (a <= 0) as Ha by lia. specialize (H2 Ha). lia.
    + rewrite (H3 (Heq Hc)) in Hd. cbn [Py.float_key] in Hd. lia.
Qed.

Lemma distance_sign_agrees_witness :
  In (5, 5) (fst (find_coordinates_above_and_below_line
                    [(5, 5); (5, -5)] (0, 0) (10, 0))).
Proof.
  assert (Hd : distance_from_line_to_point (0, 0) (10, 0) (5, 5)
               = inr (Py.float_quotient (Py.Finite (50 * 2 ^ 1074))
                                        (Py.Finite (10 * 2 ^ 1074))))
    by (vm_compute; reflexivity).
  destruct (distance_sign_agrees [(5, 5); (5, -5)] (0, 0) (10, 0) (5, 5) _ Hd)
    as (_ & _ & _ & Hside).
  apply Hside.
  - simpl. tauto.
  - vm_compute. reflexivity.
Defined.

